(** * silk: the value model and the assertion engine

    A shallow embedding of [parse/value.go] (package [parse]: [Value],
    [String], [Equal], [Type], [ParseValue]) and of the runner (package
    [runner]: [RunFile], [RunGroup], [runRequest], [fail], [assertBody],
    [assertDetail], [assertData]).

    Go strings and byte slices are sequences of bytes: [string] (a list of
    [ascii]) is used for both.  A value of type [interface{}] is a [GoVal].
    A run-time panic is the [Panic] result.  What the runner does to the
    outside world (logging, [FailNow], the transport, the body parser) is
    recorded as a trace of [Event]s. *)

From Stdlib Require Import ZArith String Ascii List Bool Lia.
From Stdlib Require Import Floats.SpecFloat.
From stdpp Require Import base option list gmap strings pretty sorting.

Set Warnings "-register-all".
Local Open Scope string_scope.

(** ** Go prelude *)

(** [error] values are observed through [Error()] only. *)
Definition error := string.

(** The value a panic carries: an explicit [panic(msg)], a run-time error,
    or the panic of [regexp.MustCompile(pattern)] on a compile error. *)
Inductive PanicValue : Type :=
| PanicString (msg : string)
| RuntimeError (msg : string)
| MustCompilePanic (pattern : string) (err : error).

(** The outcome of a Go expression that may panic. *)
Inductive Result (A : Type) : Type :=
| Ok (a : A)
| Panic (p : PanicValue).
Arguments Ok {A} a.
Arguments Panic {A} p.

Definition bindR {A B} (r : Result A) (k : A → Result B) : Result B :=
  match r with
  | Ok a => k a
  | Panic p => Panic p
  end.

#[global] Instance Result_bind : MBind Result := λ A B k r, bindR r k.
#[global] Instance Result_ret : MRet Result := λ A a, Ok a.

(** A [float64] is an IEEE 754 binary64 number. *)
Definition float64 := spec_float.

(** The conversion [float64(n)] of an integer. *)
Definition float64_of_int (n : Z) : float64 := binary_normalize 53 1024 n 0 false.

(** [==] on two [float64]: NaN differs from itself, the two zeros are equal. *)
Definition float64_eq (x y : float64) : bool := SFeqb x y.

(** Dynamic values: what an [interface{}] holds after [json.Unmarshal] (nil,
    bool, float64, string, []interface{}, map[string]interface{}), and [int],
    which callers of the package may store in a [Value]. *)
Inductive GoVal : Type :=
| VNil
| VBool (b : bool)
| VFloat64 (f : float64)
| VInt (n : Z)
| VString (s : string)
| VSlice (l : list GoVal)
| VMap (m : gmap string GoVal).

(** [a == b] on interface values: values of different dynamic types are
    unequal; values of the same comparable type are compared; comparing two
    values of the same uncomparable type (slice, map) panics. *)
Definition iface_eq (a b : GoVal) : Result bool :=
  match a, b with
  | VNil, VNil => Ok true
  | VBool x, VBool y => Ok (Bool.eqb x y)
  | VFloat64 x, VFloat64 y => Ok (float64_eq x y)
  | VInt x, VInt y => Ok (Z.eqb x y)
  | VString x, VString y => Ok (String.eqb x y)
  | VSlice _, VSlice _ =>
      Panic (RuntimeError "comparing uncomparable type []interface {}")
  | VMap _, VMap _ =>
      Panic (RuntimeError "comparing uncomparable type map[string]interface {}")
  | _, _ => Ok false
  end.

(** *** package strings, and slicing *)

Definition len (s : string) : Z := Z.of_nat (String.length s).

Definition HasPrefix (s p : string) : bool := String.prefix p s.

Definition HasSuffix (s p : string) : bool :=
  Nat.leb (String.length p) (String.length s)
  && String.eqb (substring (String.length s - String.length p) (String.length p) s) p.

(** The slice expression [s[lo:hi]], which panics out of range. *)
Definition slice_string (s : string) (lo hi : Z) : Result string :=
  if (0 <=? lo)%Z && (lo <=? hi)%Z && (hi <=? len s)%Z
  then Ok (substring (Z.to_nat lo) (Z.to_nat (hi - lo)) s)
  else Panic (RuntimeError "slice bounds out of range").

(** [strings.Join] *)
Definition Join (elems : list string) (sep : string) : string := String.concat sep elems.

(** [strconv.Itoa] and [strconv.FormatInt(_, 10)] *)
Definition Itoa (n : Z) : string := pretty n.

(** Byte slices: [reflect.DeepEqual] tells a nil slice from an empty one. *)
Inductive ByteSlice : Type :=
| NilBytes
| Bytes (b : string).

Definition string_of_bytes (b : ByteSlice) : string :=
  match b with
  | NilBytes => ""
  | Bytes s => s
  end.

(** [reflect.DeepEqual] on two [[]byte]. *)
Definition DeepEqual (a b : ByteSlice) : bool :=
  match a, b with
  | NilBytes, NilBytes => true
  | Bytes x, Bytes y => String.eqb x y
  | _, _ => false
  end.


(** ** The Go libraries the code calls

    Library functions with a short, fixed definition ([fmt] on everything but
    floats, [encoding/json.Marshal] on everything but floats) are written out
    below.  The others are the fields of [GoLib]; [goRef] further down is an
    executable instance. *)
Class GoLib : Type := {
  (** package regexp: the type [Regexp] *)
  Regexp : Type;
  (** [regexp.Compile]: the compiled expression, or the error's text *)
  regexp_Compile : string → Regexp + error;
  (** the method [Match] of a [Regexp] *)
  regexp_Match : Regexp → string → bool;
  (** [strconv.FormatFloat(f, 'g', -1, 64)], which is [%v] on a float64 *)
  fmt_float64 : float64 → string;
  (** the encoding of a finite float64 by [encoding/json] *)
  json_float64 : float64 → string;
  (** [json.Unmarshal(src, &v)] for [v interface{}]: the decoded value, or
      [None] when an error is returned *)
  json_Unmarshal : string → option GoVal;
  (** [textproto.CanonicalMIMEHeaderKey] *)
  CanonicalMIMEHeaderKey : string → string;
  (** [url.ParseQuery], errors ignored as the method [Query] of a URL does *)
  url_ParseQuery : string → gmap string (list string);
  (** [url.Values.Encode] *)
  url_Encode : gmap string (list string) → string;
  (** [m.GetOK] of github.com/cheekybits/m *)
  m_GetOK : gmap string GoVal → string → GoVal * bool;
}.

(** *** package fmt *)

(** The entries of a map in the order of their keys, as [fmt] and
    [encoding/json] visit them. *)
Definition key_le {A} (x y : string * A) : Prop := String.leb x.1 y.1 = true.

#[global] Instance key_le_dec {A} (x y : string * A) : Decision (key_le x y).
Proof. unfold key_le. apply _. Defined.

Definition sorted_entries {A} (m : gmap string A) : list (string * A) :=
  merge_sort key_le (map_to_list m).

Section Fmt.
Context `{GoLib}.

(** [fmt.Sprintf("%v", x)] *)
Fixpoint Sprint_v (x : GoVal) : string :=
  match x with
  | VNil => "<nil>"
  | VBool true => "true"
  | VBool false => "false"
  | VFloat64 f => fmt_float64 f
  | VInt n => Itoa n
  | VString s => s
  | VSlice l => "[" ++ Join (map Sprint_v l) " " ++ "]"
  | VMap m =>
      "map[" ++
      Join (map (λ kv, kv.1 ++ ":" ++ kv.2) (sorted_entries (Sprint_v <$> m))) " "
      ++ "]"
  end.

(** [fmt.Sprintf("%T", x)] *)
Definition Sprint_T (x : GoVal) : string :=
  match x with
  | VNil => "<nil>"
  | VBool _ => "bool"
  | VFloat64 _ => "float64"
  | VInt _ => "int"
  | VString _ => "string"
  | VSlice _ => "[]interface {}"
  | VMap _ => "map[string]interface {}"
  end.
End Fmt.

(** *** package encoding/json: Marshal *)

Definition dquote : string := String (ascii_of_N 34) "".

Definition hex_digit (n : N) : ascii :=
  ascii_of_N (if (n <? 10)%N then 48 + n else 87 + n).

(** The escape of a byte below 0x80 by its code point *)
Definition json_u00 (b : N) : string :=
  "\u00" ++ String (hex_digit (b / 16)) (String (hex_digit (b mod 16)) "").

(** The bytes json copies unescaped ([htmlSafeSet]). *)
Definition htmlSafe (b : N) : bool :=
  (32 <=? b)%N && (b <? 128)%N
  && negb (b =? 34)%N && negb (b =? 38)%N && negb (b =? 60)%N
  && negb (b =? 62)%N && negb (b =? 92)%N.

Definition json_escape_byte (b : N) : string :=
  if (b =? 92)%N then "\\"
  else if (b =? 34)%N then "\" ++ dquote
  else if (b =? 8)%N then "\b"
  else if (b =? 12)%N then "\f"
  else if (b =? 10)%N then "\n"
  else if (b =? 13)%N then "\r"
  else if (b =? 9)%N then "\t"
  else json_u00 b.

Definition byte_in (lo hi : N) (s : string) (i : nat) : bool :=
  match String.get i s with
  | Some c => (lo <=? N_of_ascii c)%N && (N_of_ascii c <=? hi)%N
  | None => false
  end.

(** The width of the UTF-8 sequence at the head of [s] when it is a valid
    one of two bytes or more, else 0 ([utf8.DecodeRuneInString] then returns
    [RuneError] with width 1). *)
Definition utf8_width (s : string) : nat :=
  match s with
  | "" => 0
  | String c _ =>
      let b := N_of_ascii c in
      if (194 <=? b)%N && (b <=? 223)%N then
        if byte_in 128 191 s 1 then 2 else 0
      else if (224 <=? b)%N && (b <=? 239)%N then
        let lo := if (b =? 224)%N then 160%N else 128%N in
        let hi := if (b =? 237)%N then 159%N else 191%N in
        if byte_in lo hi s 1 && byte_in 128 191 s 2 then 3 else 0
      else if (240 <=? b)%N && (b <=? 244)%N then
        let lo := if (b =? 240)%N then 144%N else 128%N in
        let hi := if (b =? 244)%N then 143%N else 191%N in
        if byte_in lo hi s 1 && byte_in 128 191 s 2 && byte_in 128 191 s 3
        then 4 else 0
      else 0
  end.

(** U+2028 and U+2029 in UTF-8 *)
Definition utf8_2028 : string :=
  String (ascii_of_N 226) (String (ascii_of_N 128) (String (ascii_of_N 168) "")).
Definition utf8_2029 : string :=
  String (ascii_of_N 226) (String (ascii_of_N 128) (String (ascii_of_N 169) "")).

(** The interior of a JSON string literal.  [copy] counts the continuation
    bytes of a rune that is being copied, [drop] those of a rune that has
    been written as an escape. *)
Fixpoint json_escape (s : string) (copy drop : nat) : string :=
  match s with
  | "" => ""
  | String c rest =>
      match drop, copy with
      | S d, _ => json_escape rest copy d
      | O, S k => String c (json_escape rest k O)
      | O, O =>
          let b := N_of_ascii c in
          if (b <? 128)%N then
            if htmlSafe b then String c (json_escape rest 0 0)
            else json_escape_byte b ++ json_escape rest 0 0
          else
            match utf8_width s with
            | O => "\ufffd" ++ json_escape rest 0 0
            | S w =>
                if String.prefix utf8_2028 s then "\u2028" ++ json_escape rest 0 w
                else if String.prefix utf8_2029 s then "\u2029" ++ json_escape rest 0 w
                else String c (json_escape rest w 0)
            end
      end
  end.

(** The encoding of a Go string *)
Definition json_string (s : string) : string :=
  dquote ++ json_escape s 0 0 ++ dquote.

(** Sequencing the errors of a list of encodings, first error first. *)
Fixpoint sequence_sum {A} (l : list (A + error)) : list A + error :=
  match l with
  | [] => inl []
  | inr e :: _ => inr e
  | inl a :: l' =>
      match sequence_sum l' with
      | inl r => inl (a :: r)
      | inr e => inr e
      end
  end.

Definition keyed {A} (kv : string * (A + error)) : (string * A) + error :=
  match kv.2 with
  | inl a => inl (kv.1, a)
  | inr e => inr e
  end.

Definition float64_is_finite (f : float64) : bool :=
  match f with
  | S754_zero _ | S754_finite _ _ _ => true
  | S754_infinity _ | S754_nan => false
  end.

Section Json.
Context `{GoLib}.

(** [json.Marshal(x)]: the encoding, or the error's text (NaN and the
    infinities are unsupported values). *)
Fixpoint json_Marshal (x : GoVal) : string + error :=
  match x with
  | VNil => inl "null"
  | VBool true => inl "true"
  | VBool false => inl "false"
  | VFloat64 f =>
      if float64_is_finite f then inl (json_float64 f)
      else inr ("json: unsupported value: " ++ fmt_float64 f)
  | VInt n => inl (Itoa n)
  | VString s => inl (json_string s)
  | VSlice l =>
      match sequence_sum (map json_Marshal l) with
      | inl parts => inl ("[" ++ Join parts "," ++ "]")
      | inr e => inr e
      end
  | VMap m =>
      match sequence_sum (map keyed (sorted_entries (json_Marshal <$> m))) with
      | inl parts =>
          inl ("{" ++ Join (map (λ kv, json_string kv.1 ++ ":" ++ kv.2) parts) ","
               ++ "}")
      | inr e => inr e
      end
  end.
End Json.

(** ** package parse *)

(** [type Value struct { Data interface{} }] *)
Record Value : Type := { Data : GoVal }.

(** Modelled from the spec: [clean], which [ParseValue] calls, is defined in a
    file of package [parse] that is not among the sources; the spec says that
    [ParseValue] "trims/cleans the raw token".  Here it removes the leading
    and trailing white space (space, tab, line feed, carriage return). *)
Definition is_space (c : ascii) : bool :=
  let n := N_of_ascii c in
  (n =? 32)%N || (n =? 9)%N || (n =? 10)%N || (n =? 13)%N.

Fixpoint trim_left (s : string) : string :=
  match s with
  | String c rest => if is_space c then trim_left rest else s
  | "" => ""
  end.

Fixpoint trim_right (s : string) : string :=
  match s with
  | String c rest =>
      match trim_right rest with
      | "" => if is_space c then "" else String c ""
      | r => String c r
      end
  | "" => ""
  end.

Definition clean (src : string) : string := trim_right (trim_left src).

Section ParseValue.
Context `{GoLib}.

(** [func (v Value) String() string] *)
Definition Value_String (v : Value) : Result string :=
  match json_Marshal (Data v) with
  | inr err =>
      Panic (PanicString ("silk: cannot marshal value: " ++ dquote
                          ++ Sprint_v (Data v) ++ dquote ++ ": " ++ err))
  | inl b => Ok b
  end.

(** [regexp.MustCompile] *)
Definition MustCompile (str : string) : Result Regexp :=
  match regexp_Compile str with
  | inl re => Ok re
  | inr err => Panic (MustCompilePanic str err)
  end.

(** [func (v Value) Equal(val interface{}) bool] *)
Definition Value_Equal (v : Value) (val : GoVal) : Result bool :=
  match Data v with
  | VString str =>
      if HasPrefix str "/" && HasSuffix str "/" then
        inner ← slice_string str 1 (len str - 1);
        regex ← MustCompile inner;
        let valStr := Sprint_v val in
        if regexp_Match regex valStr then Ok true
        else iface_eq (Data v) val
      else iface_eq (Data v) val
  | _ => iface_eq (Data v) val
  end.

(** [func (v Value) Type() string] *)
Definition Value_Type (v : Value) : string :=
  match Data v with
  | VString str =>
      if HasPrefix str "/" && HasSuffix str "/" then "regex" else "string"
  | d => Sprint_T d
  end.

(** [func ParseValue(src []byte) *Value] *)
Definition ParseValue (src : string) : Value :=
  let src := clean src in
  match json_Unmarshal src with
  | None => {| Data := VString src |}
  | Some v => {| Data := v |}
  end.
End ParseValue.

(** Modelled from the spec: [Detail], [Line], [Lines], [Request] and [Group]
    are declared in files of package [parse] that are not among the sources.
    The records hold what the runner reads of them, after the spec's data
    model: a detail is a key and a [Value]; a line has its number in the
    document and, for a bullet, its detail (the result of [line.Detail()]);
    a request has its method, path, and five blocks of lines; a group has a
    file name, a title and its requests in order. *)
Record Detail : Type := { Key : string; DetailValue : Value }.

Record Line : Type := { Number : Z; LineBytes : string; LineDetail : Detail }.

Definition Lines : Type := list Line.

Record Request : Type := {
  Method : string;
  Path : string;
  Body : Lines;
  Details : Lines;
  Params : Lines;
  ExpectedBody : Lines;
  ExpectedDetails : Lines;
}.

Record Group : Type := {
  Filename : string;
  Title : string;
  Requests : list Request;
}.

(** The functions of package [parse] that the runner calls and that are not
    among the sources. *)
Class ParsePkg : Type := {
  (** the method [Join] of [Lines] *)
  Lines_Join : Lines → ByteSlice;
  (** the method [String] of [Lines] *)
  Lines_String : Lines → string;
  (** the bytes that the reader of the method [Reader] of [Lines] yields *)
  Lines_Reader : Lines → string;
  (** the method [Number] of [Lines] *)
  Lines_Number : Lines → Z;
  (** the method [String] of a [Detail] *)
  Detail_String : Detail → string;
  (** reading and parsing one document *)
  parse_document : string → Group + error;
}.

(** Modelled from the spec: [parse.ParseFile] is not among the sources.  The
    spec: a parse failure aborts parsing of that document and surfaces an
    error to the caller, no partial Group is returned; when several documents
    are parsed together, a failure in any one is surfaced immediately. *)
Fixpoint ParseFile `{ParsePkg} (filenames : list string) : list Group + error :=
  match filenames with
  | [] => inl []
  | f :: rest =>
      match parse_document f with
      | inr err => inr err
      | inl g =>
          match ParseFile rest with
          | inr err => inr err
          | inl gs => inl (g :: gs)
          end
      end
  end.

(** ** package net/http, as far as the runner uses it *)

(** [http.Header] and [url.Values] are both [map[string][]string]. *)
Abbreviation StringsMap := (gmap string (list string)).

Record URL : Type := { URLBase : string; RawQuery : string }.

Record HttpRequest : Type := {
  ReqMethod : string;
  ReqURL : URL;
  ReqHeader : StringsMap;
  ReqBody : option string;
}.

(** A response: [BodyRead] is the outcome of [ioutil.ReadAll] on its body. *)
Record HttpResponse : Type := {
  StatusCode : Z;
  Header : StringsMap;
  BodyRead : string + error;
}.

(** [m[key] = append(m[key], value)] *)
Definition strings_append (m : StringsMap) (key value : string) : StringsMap :=
  <[key := (default [] (m !! key) ++ [value])%list]> m.

(** [h.Add(key, value)] on a header *)
Definition Header_Add `{GoLib} (h : StringsMap) (key value : string) : StringsMap :=
  strings_append h (CanonicalMIMEHeaderKey key) value.

(** [v.Add(key, value)] on query values *)
Definition Values_Add (v : StringsMap) (key value : string) : StringsMap :=
  strings_append v key value.

(** ** package runner *)

Definition indent : string := " ".

(** What a run does to the outside world, in order. *)
Inductive Event : Type :=
| ELog (s : string)                     (* r.Log(s) *)
| EVerbose (args : list GoVal)          (* r.Verbose(args...) *)
| ETLog (args : list string)            (* r.t.Log(args...) *)
| EFailNow                              (* r.t.FailNow() *)
| ENewRequest (method urlStr : string) (body : option string)
| ERoundTrip (req : HttpRequest)
| EParseBody (body : string)
| EBodyClose.                           (* the deferred httpRes.Body.Close() *)

(** How the evaluation of a request ends. *)
Inductive Verdict : Type :=
| Completed                             (* ran to its end, no failure reported *)
| Failed                                (* returned after r.t.FailNow() *)
| Panicked (p : PanicValue).

(** [Runner]: the collaborators are functions; [FailNowReturns] tells whether
    [t.FailNow] returns to its caller ([testing.T]'s does not: it stops the
    goroutine). *)
Record Runner : Type := {
  FailNowReturns : bool;
  rootURL : string;
  RoundTripper : HttpRequest → HttpResponse + error;
  ParseBody : string → GoVal * option error;
  NewRequest : string → string → option string → HttpRequest + error;
}.

(** A computation of the runner: the events so far, and either a value to go
    on with or the verdict with which the function has returned. *)
Definition Run (A : Type) : Type := list Event * (A + Verdict).

Definition ret {A} (a : A) : Run A := ([], inl a).
Definition emit (e : Event) : Run unit := ([e], inl tt).
Definition stop {A} (v : Verdict) : Run A := ([], inr v).

Definition bind {A B} (m : Run A) (k : A → Run B) : Run B :=
  match m with
  | (tr, inl a) => let '(tr', r) := k a in ((tr ++ tr')%list, r)
  | (tr, inr v) => (tr, inr v)
  end.

#[global] Instance Run_bind : MBind Run := λ A B k m, bind m k.
#[global] Instance Run_ret : MRet Run := λ A a, ret a.

Definition liftR {A} (r : Result A) : Run A :=
  match r with
  | Ok a => ret a
  | Panic p => stop (Panicked p)
  end.

(** [for _, x := range l { acc = body(acc, x) }] *)
Fixpoint foldM {A S} (body : S → A → Run S) (acc : S) (l : list A) : Run S :=
  match l with
  | [] => ret acc
  | x :: l' => acc' ← body acc x; foldM body acc' l'
  end.

(** The verdict of a function body that runs to its end. *)
Definition finish (m : Run unit) : list Event * Verdict :=
  match m with
  | (tr, inl _) => (tr, Completed)
  | (tr, inr v) => (tr, v)
  end.

Definition newline : string := String (ascii_of_N 10) "".

Definition is_nil (x : GoVal) : bool :=
  match x with
  | VNil => true
  | _ => false
  end.

(** The text of a panic value, as [fmt] prints it. *)
Definition panic_text (p : PanicValue) : string :=
  match p with
  | PanicString msg => msg
  | RuntimeError msg => "runtime error: " ++ msg
  | MustCompilePanic pattern err => "regexp: Compile(" ++ pattern ++ "): " ++ err
  end.

Section Runner.
Context `{GoLib} `{ParsePkg}.

(** [%s] on a [*parse.Value]: its [String] method, whose panic [fmt]
    recovers and prints. *)
Definition Sprint_s_Value (v : Value) : string :=
  match Value_String v with
  | Ok s => s
  | Panic p => "%!s(PANIC=String method: " ++ panic_text p ++ ")"
  end.

(** [func (r *Runner) log(args ...interface{})], on arguments already
    printed by [fmt.Sprint] (all are strings or errors). *)
Definition log (args : list string) : Run unit :=
  emit (ELog (Join (args ++ [" "])%list " ")).

(** [func (r *Runner) fail(group, req, line, args...)] *)
Definition fail (group : Group) (req : Request) (line : Z) (args : list string)
  : Run unit :=
  let logargs := ["--- FAIL:"; Method req; Path req; newline;
                  Filename group ++ ":" ++ Itoa line] in
  log (logargs ++ args)%list;;
  emit EFailNow.

(** [func (r *Runner) assertBody(actual, expected []byte) bool] *)
Definition assertBody (actual expected : ByteSlice) : Run bool :=
  if negb (DeepEqual actual expected) then
    log ["body expected:"];;
    log ["```"];;
    log [string_of_bytes expected];;
    log ["```"];;
    log ["actual:"];;
    log ["```"];;
    log [string_of_bytes actual];;
    log ["```"];;
    mret false
  else mret true.

(** [func (r *Runner) assertDetail(key, actual, expected) bool] *)
Definition assertDetail (key : string) (actual : GoVal) (expected : Value)
  : Run bool :=
  same ← liftR (iface_eq actual (Data expected));
  if negb same then
    let actualVal := ParseValue (Sprint_v actual) in
    log [key; "expected " ++ Value_Type expected ++ ": " ++ Sprint_s_Value expected
              ++ "  actual " ++ Sprint_T actual ++ ": " ++ Sprint_s_Value actualVal];;
    mret false
  else mret true.

(** [func (r *Runner) assertData(data, errData, key, expected) bool] *)
Definition assertData (data : GoVal) (errData : option error) (key : string)
    (expected : Value) : Run bool :=
  match errData with
  | Some err =>
      log [key; "expected " ++ Value_Type expected ++ ": " ++ Sprint_s_Value expected
                ++ "  actual: failed to parse body: " ++ err];;
      mret false
  | None =>
      if is_nil data then
        log [key; "expected " ++ Value_Type expected ++ ": "
                  ++ Sprint_s_Value expected ++ "  actual: no data"];;
        mret false
      else
        let '(actual, ok) := m_GetOK {["Data" := data]} key in
        if negb ok && negb (is_nil (Data expected)) then
          log [key; "expected " ++ Value_Type expected ++ ": "
                    ++ Sprint_s_Value expected ++ "  actual: (missing)"];;
          mret false
        else if negb ok && is_nil (Data expected) then
          mret true
        else
          eq ← liftR (Value_Equal expected actual);
          if negb eq then
            let actualVal := ParseValue (Sprint_v actual) in
            log [key; "expected " ++ Value_Type expected ++ ": "
                      ++ Sprint_s_Value expected ++ "  actual " ++ Sprint_T actual
                      ++ ": " ++ Sprint_s_Value actualVal];;
            mret false
          else mret true
  end.

(** The loop that sets the request headers. *)
Definition add_header (h : StringsMap) (line : Line) : Run StringsMap :=
  let detail := LineDetail line in
  emit (EVerbose [VString indent; VString (Detail_String detail)]);;
  mret (Header_Add h (Key detail) (Sprint_v (Data (DetailValue detail)))).

(** The loop that sets the query parameters. *)
Definition add_param (q : StringsMap) (line : Line) : Run StringsMap :=
  let detail := LineDetail line in
  emit (EVerbose [VString indent; VString (Detail_String detail)]);;
  mret (Values_Add q (Key detail) (Sprint_v (Data (DetailValue detail)))).

(** The loops that collect the response details: for every header name, an
    assignment per value, in order. *)
Definition collect_header (k : string) (vs : list string) (acc : gmap string GoVal)
  : gmap string GoVal :=
  foldl (λ acc v, <[k := VString v]> acc) acc vs.

Definition responseDetails_of (httpRes : HttpResponse) : gmap string GoVal :=
  let responseDetails := map_fold collect_header ∅ (Header httpRes) in
  <["Status" := VFloat64 (float64_of_int (StatusCode httpRes))]> responseDetails.

(** [parseDataOnce.Do(...)]: the body is parsed at the first use, and the
    result kept for the next ones. *)
Definition parse_once (r : Runner) (actualBody : string)
    (cache : option (GoVal * option error)) : Run (GoVal * option error) :=
  match cache with
  | Some res => mret res
  | None => emit (EParseBody actualBody);; mret (ParseBody r actualBody)
  end.

(** One turn of the loop over [req.ExpectedDetails]. *)
Definition check_detail (r : Runner) (group : Group) (req : Request)
    (responseDetails : gmap string GoVal) (actualBody : string)
    (cache : option (GoVal * option error)) (line : Line)
  : Run (option (GoVal * option error)) :=
  let detail := LineDetail line in
  if HasPrefix (Key detail) "Data" then
    parsed ← parse_once r actualBody cache;
    ok ← assertData parsed.1 parsed.2 (Key detail) (DetailValue detail);
    if negb ok then
      fail group req (Number line) ["- " ++ Key detail ++ " doesn't match"];;
      stop Failed
    else mret (Some parsed)
  else
    match responseDetails !! Key detail with
    | None =>
        log [Key detail;
             "expected " ++ Value_Type (DetailValue detail) ++ ": "
             ++ Detail_String detail ++ "  actual " ++ Sprint_T VNil ++ ": (missing)"];;
        fail group req (Number line) ["- " ++ Key detail ++ " doesn't match"];;
        stop Failed
    | Some actual =>
        ok ← assertDetail (Key detail) actual (DetailValue detail);
        if negb ok then
          fail group req (Number line) ["- " ++ Key detail ++ " doesn't match"];;
          stop Failed
        else mret cache
    end.

(** The part of [runRequest] after the response has been received. *)
Definition check_response (r : Runner) (group : Group) (req : Request)
    (httpRes : HttpResponse) : Run unit :=
  let responseDetails := responseDetails_of httpRes in
  match BodyRead httpRes with
  | inr err =>
      log ["failed to read body: "; err];;
      emit EFailNow;;
      stop Failed
  | inl actualBody =>
      (if bool_decide (0 < List.length (ExpectedBody req)) then
         ok ← assertBody (Bytes actualBody) (Lines_Join (ExpectedBody req));
         if negb ok then
           fail group req (Lines_Number (ExpectedBody req)) ["- body doesn't match"];;
           stop Failed
         else mret tt
       else mret tt);;
      foldM (check_detail r group req responseDetails actualBody)
            None (ExpectedDetails req);;
      mret tt
  end.

(** The deferred [httpRes.Body.Close()] runs when the function is left. *)
Definition defer_close {A} (m : Run A) : Run A := (m.1 ++ [EBodyClose], m.2)%list.

(** [func (r *Runner) runRequest(group *parse.Group, req *parse.Request)] *)
Definition runRequest_body (r : Runner) (group : Group) (req : Request) : Run unit :=
  let m := Method req in
  let p := Path req in
  let body :=
    if bool_decide (0 < List.length (Body req))
    then Some (Lines_Reader (Body req)) else None in
  let absPath := rootURL r ++ p in
  emit (EVerbose [VString (Method req); VString absPath]);;
  emit (ENewRequest m absPath body);;
  match NewRequest r m absPath body with
  | inr err =>
      log ["invalid request: "; err];;
      emit EFailNow;;
      stop Failed
  | inl httpReq =>
      let bodyLen := len (Lines_String (Body req)) in
      let header := Header_Add (ReqHeader httpReq) "Content-Length" (Itoa bodyLen) in
      emit (EVerbose [VString indent; VString "Content-Length:"; VInt bodyLen]);;
      header ← foldM add_header header (Details req);
      q ← foldM add_param (url_ParseQuery (RawQuery (ReqURL httpReq))) (Params req);
      let httpReq :=
        {| ReqMethod := ReqMethod httpReq;
           ReqURL := {| URLBase := URLBase (ReqURL httpReq); RawQuery := url_Encode q |};
           ReqHeader := header;
           ReqBody := ReqBody httpReq |} in
      emit (ERoundTrip httpReq);;
      match RoundTripper r httpReq with
      | inr err =>
          log [err];;
          emit EFailNow;;
          stop Failed
      | inl httpRes => defer_close (check_response r group req httpRes)
      end
  end.

Definition runRequest (r : Runner) (group : Group) (req : Request)
  : list Event * Verdict :=
  finish (runRequest_body r group req).

(** Whether the caller's loop goes on after a request or a group. *)
Definition goes_on (r : Runner) (v : Verdict) : bool :=
  match v with
  | Completed => true
  | Failed => FailNowReturns r
  | Panicked _ => false
  end.

(** A loop of runs that ends with the first one that stops the goroutine. *)
Fixpoint run_all {A} (r : Runner) (run1 : A → list Event * Verdict) (l : list A)
  : list Event * Verdict :=
  match l with
  | [] => ([], Completed)
  | x :: l' =>
      let '(tr, v) := run1 x in
      if goes_on r v then
        let '(tr', v') := run_all r run1 l' in
        ((tr ++ tr')%list, match v, v' with Failed, Completed => Failed | _, _ => v' end)
      else (tr, v)
  end.

(** [func (r *Runner) runGroup(group *parse.Group)] *)
Definition runGroup (r : Runner) (group : Group) : list Event * Verdict :=
  run_all r (runRequest r group) (Requests group).

(** [func (r *Runner) RunGroup(groups ...*parse.Group)] *)
Definition RunGroup (r : Runner) (groups : list Group) : list Event * Verdict :=
  run_all r (runGroup r) groups.

(** [func (r *Runner) RunFile(filenames ...string)] *)
Definition RunFile (r : Runner) (filenames : list string) : list Event * Verdict :=
  match ParseFile filenames with
  | inr err => finish (log [err])
  | inl groups => RunGroup r groups
  end.

(** [func (r *Runner) RunGlob(files []string, err error)] *)
Definition RunGlob (r : Runner) (files : list string) (err : option error)
  : list Event * Verdict :=
  match err with
  | Some e => ([ETLog ["silk:"; e]; EFailNow], Failed)
  | None => RunFile r files
  end.
End Runner.

(** ** An executable instance of the libraries

    [goRef] implements the fields of [GoLib] so that the model runs on
    concrete inputs.  Its regular expressions are a fragment of the RE2
    syntax over bytes (literals, [.], classes, the escapes for digits, word
    characters and white space, anchors, groups, alternation, [*], [+], [?]);
    a pattern outside the fragment is refused with an error of its own. *)
Module Ref.

(** *** Regular expressions *)

Inductive Re : Type :=
| RNone                                   (* matches nothing *)
| REmpty                                  (* the empty string *)
| RSet (neg : bool) (ranges : list (N * N))
| RBegin                                  (* ^ and \A *)
| REnd                                    (* $ and \z *)
| RCat (a b : Re)
| RAlt (a b : Re)
| RStar (a : Re).

Definition in_set (neg : bool) (ranges : list (N * N)) (c : ascii) : bool :=
  let n := N_of_ascii c in
  xorb neg (existsb (λ r : N * N, (r.1 <=? n)%N && (n <=? r.2)%N) ranges).

(** Whether [a] matches the empty string at a position that is or is not
    the start, the end of the text. *)
Fixpoint nullable (a : Re) (atStart atEnd : bool) : bool :=
  match a with
  | RNone => false
  | REmpty => true
  | RSet _ _ => false
  | RBegin => atStart
  | REnd => atEnd
  | RCat x y => nullable x atStart atEnd && nullable y atStart atEnd
  | RAlt x y => nullable x atStart atEnd || nullable y atStart atEnd
  | RStar _ => true
  end.

(** What is left of [a] to match after the byte [c] has been read. *)
Fixpoint deriv (a : Re) (c : ascii) (atStart : bool) : Re :=
  match a with
  | RNone | REmpty | RBegin | REnd => RNone
  | RSet neg ranges => if in_set neg ranges c then REmpty else RNone
  | RCat x y =>
      let first := RCat (deriv x c atStart) y in
      if nullable x atStart false then RAlt first (deriv y c atStart) else first
  | RAlt x y => RAlt (deriv x c atStart) (deriv y c atStart)
  | RStar x => RCat (deriv x c atStart) (RStar x)
  end.

(** Whether [a] matches a prefix of [s]. *)
Fixpoint match_prefix (a : Re) (s : string) (atStart : bool) : bool :=
  match s with
  | "" => nullable a atStart true
  | String c rest =>
      nullable a atStart false || match_prefix (deriv a c atStart) rest false
  end.

(** Whether [a] matches somewhere in [s]. *)
Fixpoint search (a : Re) (s : string) (atStart : bool) : bool :=
  match_prefix a s atStart
  || match s with
     | "" => false
     | String _ rest => search a rest false
     end.

Definition digit_set : list (N * N) := [(48, 57)]%N.
Definition word_set : list (N * N) := [(48, 57); (65, 90); (95, 95); (97, 122)]%N.
Definition space_set : list (N * N) := [(9, 10); (12, 13); (32, 32)]%N.

Definition is_punct (n : N) : bool :=
  (33 <=? n)%N && (n <=? 126)%N
  && negb ((48 <=? n)%N && (n <=? 57)%N)
  && negb ((65 <=? n)%N && (n <=? 90)%N)
  && negb ((97 <=? n)%N && (n <=? 122)%N).

(** The class an escape stands for, with its negation flag. *)
Definition escape_set (c : ascii) : option (bool * list (N * N)) :=
  let n := N_of_ascii c in
  if (n =? 100)%N then Some (false, digit_set)
  else if (n =? 68)%N then Some (true, digit_set)
  else if (n =? 119)%N then Some (false, word_set)
  else if (n =? 87)%N then Some (true, word_set)
  else if (n =? 115)%N then Some (false, space_set)
  else if (n =? 83)%N then Some (true, space_set)
  else if (n =? 110)%N then Some (false, [(10, 10)]%N)
  else if (n =? 116)%N then Some (false, [(9, 9)]%N)
  else if (n =? 114)%N then Some (false, [(13, 13)]%N)
  else if is_punct n then Some (false, [(n, n)])
  else None.

Definition unsupported : error := "not in the fragment of the reference engine".

(** The items of a class, after the bracket and the caret; [first] is set
    at the first item, where a closing bracket stands for itself. *)
Fixpoint parse_class (fuel : nat) (s : string) (first : bool) (acc : list (N * N))
  : (list (N * N) * string) + error :=
  match fuel with
  | O => inr "missing closing ]"
  | S fuel =>
      match s with
      | "" => inr "missing closing ]"
      | String c rest =>
          let n := N_of_ascii c in
          if (n =? 93)%N && negb first then inl (acc, rest)
          else if (n =? 92)%N then
            match rest with
            | "" => inr "trailing backslash at end of expression"
            | String e rest' =>
                match escape_set e with
                | Some (false, rs) => parse_class fuel rest' false (acc ++ rs)%list
                | _ => inr unsupported
                end
            end
          else if (n =? 91)%N then inr unsupported
          else
            match rest with
            | String d (String h rest') =>
                if (N_of_ascii d =? 45)%N && negb (N_of_ascii h =? 93)%N then
                  if (N_of_ascii h =? 92)%N || (N_of_ascii h =? 91)%N
                  then inr unsupported
                  else if (N_of_ascii h <? n)%N then inr "invalid character class range"
                  else parse_class fuel rest' false (acc ++ [(n, N_of_ascii h)])%list
                else parse_class fuel rest false (acc ++ [(n, n)])%list
            | _ => parse_class fuel rest false (acc ++ [(n, n)])%list
            end
      end
  end.

(** After an atom: the repetition operators that follow it. *)
Definition parse_repeat (atom : Re) (s : string) : (Re * string) + error :=
  match s with
  | String c rest =>
      let n := N_of_ascii c in
      let lazy_rest :=
        match rest with
        | String q rest' => if (N_of_ascii q =? 63)%N then rest' else rest
        | "" => rest
        end in
      let checked (r : Re) : (Re * string) + error :=
        match lazy_rest with
        | String q _ =>
            if (N_of_ascii q =? 42)%N || (N_of_ascii q =? 43)%N || (N_of_ascii q =? 63)%N
            then inr "invalid nested repetition operator"
            else if (N_of_ascii q =? 123)%N then inr unsupported
            else inl (r, lazy_rest)
        | "" => inl (r, lazy_rest)
        end in
      if (n =? 42)%N then checked (RStar atom)
      else if (n =? 43)%N then checked (RCat atom (RStar atom))
      else if (n =? 63)%N then checked (RAlt atom REmpty)
      else if (n =? 123)%N then inr unsupported
      else inl (atom, s)
  | "" => inl (atom, s)
  end.

(** An alternation, up to the closing parenthesis or the end.  [cur] is
    the concatenation read so far in the current branch. *)
Fixpoint parse_alt (fuel : nat) (s : string) (cur : Re) : (Re * string) + error :=
  match fuel with
  | O => inr unsupported
  | S fuel =>
      match s with
      | "" => inl (cur, "")
      | String c rest =>
          let n := N_of_ascii c in
          let continue_with (atom : Re) (rest : string) :=
            match parse_repeat atom rest with
            | inl (a, rest') => parse_alt fuel rest' (RCat cur a)
            | inr e => inr e
            end in
          if (n =? 41)%N then inl (cur, s)
          else if (n =? 124)%N then
            match parse_alt fuel rest REmpty with
            | inl (rhs, rest') => inl (RAlt cur rhs, rest')
            | inr e => inr e
            end
          else if (n =? 40)%N then
            let inside :=
              match rest with
              | String q (String k rest') =>
                  if (N_of_ascii q =? 63)%N then
                    if (N_of_ascii k =? 58)%N then inl rest' else inr unsupported
                  else inl rest
              | _ => inl rest
              end in
            match inside with
            | inr e => inr e
            | inl body =>
                match parse_alt fuel body REmpty with
                | inl (g, String _ rest') => continue_with g rest'
                | inl (_, "") => inr "missing closing )"
                | inr e => inr e
                end
            end
          else if (n =? 42)%N || (n =? 43)%N || (n =? 63)%N then
            inr "missing argument to repetition operator"
          else if (n =? 123)%N then inr unsupported
          else if (n =? 91)%N then
            let '(neg, items) :=
              match rest with
              | String q rest' =>
                  if (N_of_ascii q =? 94)%N then (true, rest') else (false, rest)
              | "" => (false, rest)
              end in
            match parse_class (String.length items) items true [] with
            | inl (ranges, rest') => continue_with (RSet neg ranges) rest'
            | inr e => inr e
            end
          else if (n =? 46)%N then continue_with (RSet true [(10, 10)]%N) rest
          else if (n =? 94)%N then continue_with RBegin rest
          else if (n =? 36)%N then continue_with REnd rest
          else if (n =? 92)%N then
            match rest with
            | "" => inr "trailing backslash at end of expression"
            | String e rest' =>
                if (N_of_ascii e =? 65)%N then continue_with RBegin rest'
                else if (N_of_ascii e =? 122)%N then continue_with REnd rest'
                else
                  match escape_set e with
                  | Some (neg, rs) => continue_with (RSet neg rs) rest'
                  | None => inr unsupported
                  end
            end
          else if (n <? 128)%N then continue_with (RSet false [(n, n)]) rest
          else inr unsupported
      end
  end.

Definition compile (pattern : string) : Re + error :=
  match parse_alt (S (String.length pattern)) pattern REmpty with
  | inl (a, "") => inl a
  | inl (_, String _ _) => inr "unexpected )"
  | inr e => inr e
  end.
(** *** Floating-point numbers in decimal *)

(** The number [c * 10^k] as its digits without trailing zeros and the place
    [dp] of the decimal point: its value is [0.ds * 10^dp]. *)
Fixpoint strip_zeros (ds : string) : string :=
  match ds with
  | "" => ""
  | String c rest =>
      match strip_zeros rest with
      | "" => if (N_of_ascii c =? 48)%N then "" else String c ""
      | r => String c r
      end
  end.

(** The shortest decimal that rounds to [m * 2^e], the nearest to it among
    the shortest ([strconv]'s shortest mode).  With [t = 10^p]: the multiple
    of [t] below [x], the one above, whether each lies within the half-way
    points [lo] and [hi] to the neighbouring floats (included when the
    mantissa is even), for the largest [p] for which one does. *)
Fixpoint shortest_at (p : nat) (x lo hi : Z) (incl : bool) : Z :=
  let t := (10 ^ Z.of_nat p)%Z in
  let down := (x / t * t)%Z in
  let up := (down + t)%Z in
  let okdown := (lo <? down)%Z || (incl && (lo =? down)%Z) in
  let okup := (up <? hi)%Z || (incl && (up =? hi)%Z) in
  let r := (x - down)%Z in
  let nearest :=
    match (2 * r ?= t)%Z with
    | Lt => down
    | Gt => up
    | Eq => if Z.even (x / t) then down else up
    end in
  if okdown && okup then nearest
  else if okdown then down
  else if okup then up
  else
    match p with
    | O => x
    | S p' => shortest_at p' x lo hi incl
    end.

Definition shortest_digits (m : positive) (e : Z) : string * Z :=
  let lo4 :=
    if (Z.pos m =? 2 ^ 52)%Z && (-1074 <? e)%Z
    then (4 * Z.pos m - 1)%Z else (4 * Z.pos m - 2)%Z in
  let scale := if (0 <=? e - 2)%Z then (2 ^ (e - 2))%Z else (5 ^ (2 - e))%Z in
  let k := if (0 <=? e - 2)%Z then 0%Z else (e - 2)%Z in
  let x := (4 * Z.pos m * scale)%Z in
  let hi := ((4 * Z.pos m + 2) * scale)%Z in
  let lo := (lo4 * scale)%Z in
  let c := shortest_at (String.length (Itoa hi) - 1) x lo hi (Z.even (Z.pos m)) in
  (strip_zeros (Itoa c), (len (Itoa c) + k)%Z).

Definition zeros (n : Z) : string := String.concat "" (replicate (Z.to_nat n) "0").

(** The digit of [ds] at place [i], zero outside. *)
Definition digit_at (ds : string) (i : Z) : string :=
  if (0 <=? i)%Z && (i <? len ds)%Z then substring (Z.to_nat i) 1 ds else "0".

(** [%e] with all the digits: [d.ddde+xx] *)
Definition fmtE (ds : string) (dp : Z) : string :=
  let exp := (dp - 1)%Z in
  substring 0 1 ds
  ++ (if (1 <? len ds)%Z then "." ++ substring 1 (String.length ds - 1) ds else "")
  ++ "e" ++ (if (exp <? 0)%Z then "-" else "+")
  ++ (if (Z.abs exp <? 10)%Z then "0" else "") ++ Itoa (Z.abs exp).

(** [%f] with all the digits *)
Definition fmtF (ds : string) (dp : Z) : string :=
  (if (0 <? dp)%Z
   then substring 0 (Z.to_nat dp) ds ++ zeros (dp - len ds)
   else "0")
  ++ (if (dp <? len ds)%Z
      then "." ++ zeros (- dp) ++ substring (Z.to_nat dp) (String.length ds) ds
      else "").

(** [strconv.FormatFloat(f, 'g', -1, 64)] *)
Definition format_g (f : float64) : string :=
  match f with
  | S754_nan => "NaN"
  | S754_infinity false => "+Inf"
  | S754_infinity true => "-Inf"
  | S754_zero false => "0"
  | S754_zero true => "-0"
  | S754_finite s m e =>
      let '(ds, dp) := shortest_digits m e in
      (if s then "-" else "")
      ++ (if (dp - 1 <? -4)%Z || (6 <=? dp - 1)%Z then fmtE ds dp else fmtF ds dp)
  end.

(** The number of [encoding/json]: [%f], or [%e] below 1e-6 and from 1e21
    on, there with a one-digit exponent written as such. *)
Definition format_json (f : float64) : string :=
  match f with
  | S754_finite s m e =>
      let '(ds, dp) := shortest_digits m e in
      (if s then "-" else "")
      ++ (if (dp <=? -6)%Z then
            let exp := (dp - 1)%Z in
            substring 0 1 ds
            ++ (if (1 <? len ds)%Z
                then "." ++ substring 1 (String.length ds - 1) ds else "")
            ++ "e-" ++ Itoa (Z.abs exp)
          else if (22 <=? dp)%Z then fmtE ds dp
          else fmtF ds dp)
  | S754_zero true => "-0"
  | _ => "0"
  end.

(** *** json.Unmarshal into an [interface{}] *)

Fixpoint skip_ws (s : string) : string :=
  match s with
  | String c rest => if is_space c then skip_ws rest else s
  | "" => ""
  end.

Definition hex_val (c : ascii) : option N :=
  let n := N_of_ascii c in
  if (48 <=? n)%N && (n <=? 57)%N then Some (n - 48)%N
  else if (97 <=? n)%N && (n <=? 102)%N then Some (n - 87)%N
  else if (65 <=? n)%N && (n <=? 70)%N then Some (n - 55)%N
  else None.

Definition hex4 (a b c d : ascii) : option N :=
  match hex_val a, hex_val b, hex_val c, hex_val d with
  | Some x, Some y, Some z, Some w => Some (((x * 16 + y) * 16 + z) * 16 + w)%N
  | _, _, _, _ => None
  end.

Definition bytes_of (l : list N) : string :=
  foldr (λ n acc, String (ascii_of_N n) acc) "" l.

(** [utf8.EncodeRune] *)
Definition encode_rune (r : N) : string :=
  if (r <? 128)%N then bytes_of [r]
  else if (r <? 2048)%N then bytes_of [192 + r / 64; 128 + r mod 64]%N
  else if (r <? 65536)%N then
    bytes_of [224 + r / 4096; 128 + (r / 64) mod 64; 128 + r mod 64]%N
  else
    bytes_of [240 + r / 262144; 128 + (r / 4096) mod 64;
              128 + (r / 64) mod 64; 128 + r mod 64]%N.

Definition replacement_char : string := encode_rune 65533.

Definition simple_escape (e : ascii) : option string :=
  let n := N_of_ascii e in
  if (n =? 34)%N || (n =? 92)%N || (n =? 47)%N then Some (String e "")
  else if (n =? 98)%N then Some (bytes_of [8%N])
  else if (n =? 102)%N then Some (bytes_of [12%N])
  else if (n =? 110)%N then Some (bytes_of [10%N])
  else if (n =? 114)%N then Some (bytes_of [13%N])
  else if (n =? 116)%N then Some (bytes_of [9%N])
  else None.

Definition prepend (p : string) (r : option (string * string))
  : option (string * string) :=
  match r with
  | Some (body, rest) => Some (p ++ body, rest)
  | None => None
  end.

(** A string literal after its opening quote: the decoded string and what
    follows the closing quote.  [copy] counts the continuation bytes of the
    rune being copied. *)
Fixpoint parse_string (s : string) (copy : nat) : option (string * string) :=
  match s with
  | "" => None
  | String c rest =>
      match copy with
      | S k => prepend (String c "") (parse_string rest k)
      | O =>
          let n := N_of_ascii c in
          if (n =? 34)%N then Some ("", rest)
          else if (n =? 92)%N then
            match rest with
            | "" => None
            | String e rest1 =>
                if (N_of_ascii e =? 117)%N then
                  match rest1 with
                  | String a (String b (String c' (String d rest4))) =>
                      match hex4 a b c' d with
                      | None => None
                      | Some r =>
                          if (55296 <=? r)%N && (r <? 56320)%N then
                            match rest4 with
                            | String b1 (String u1 (String a1 (String b2
                                (String c1 (String d1 rest10))))) =>
                                match hex4 a1 b2 c1 d1 with
                                | Some r2 =>
                                    if (N_of_ascii b1 =? 92)%N && (N_of_ascii u1 =? 117)%N
                                       && (56320 <=? r2)%N && (r2 <? 57344)%N
                                    then prepend
                                           (encode_rune
                                              (65536 + (r - 55296) * 1024 + (r2 - 56320)))
                                           (parse_string rest10 0)
                                    else prepend replacement_char (parse_string rest4 0)
                                | None => prepend replacement_char (parse_string rest4 0)
                                end
                            | _ => prepend replacement_char (parse_string rest4 0)
                            end
                          else if (56320 <=? r)%N && (r <? 57344)%N then
                            prepend replacement_char (parse_string rest4 0)
                          else prepend (encode_rune r) (parse_string rest4 0)
                      end
                  | _ => None
                  end
                else
                  match simple_escape e with
                  | Some x => prepend x (parse_string rest1 0)
                  | None => None
                  end
            end
          else if (n <? 32)%N then None
          else if (n <? 128)%N then prepend (String c "") (parse_string rest 0)
          else
            match utf8_width s with
            | O => prepend replacement_char (parse_string rest 0)
            | S w => prepend (String c "") (parse_string rest w)
            end
      end
  end.

Definition is_digit (c : ascii) : bool :=
  (48 <=? N_of_ascii c)%N && (N_of_ascii c <=? 57)%N.

(** The digits at the head of [s], and the rest. *)
Fixpoint take_digits (s : string) : string * string :=
  match s with
  | String c rest =>
      if is_digit c then let '(ds, r) := take_digits rest in (String c ds, r)
      else ("", s)
  | "" => ("", "")
  end.

Definition digits_value (ds : string) : Z :=
  fold_left (λ acc c, (acc * 10 + Z.of_N (N_of_ascii c - 48))%Z) (list_ascii_of_string ds) 0%Z.

(** The float64 nearest to [±m * 10^x] ([strconv.ParseFloat]); [None] when
    it is out of range. *)
Definition decimal_to_float64 (neg : bool) (m x : Z) : option float64 :=
  match m with
  | Z.pos p =>
      if (400 <? x + len (Itoa m))%Z then None
      else if (x + len (Itoa m) <? -400)%Z then Some (S754_zero neg)
      else
        let f :=
          if (0 <=? x)%Z
          then binary_normalize 53 1024 (if neg then - (m * 10 ^ x) else m * 10 ^ x)%Z 0 neg
          else SFdiv 53 1024 (S754_finite neg p 0)
                     (S754_finite false (Z.to_pos (10 ^ (- x))) 0) in
        if float64_is_finite f then Some f else None
  | _ => Some (S754_zero neg)
  end.

(** A number literal: [-? int frac? exp?] *)
Definition parse_number (s : string) : option (float64 * string) :=
  let '(neg, s1) :=
    match s with
    | String c rest => if (N_of_ascii c =? 45)%N then (true, rest) else (false, s)
    | "" => (false, s)
    end in
  let '(int, s2) := take_digits s1 in
  if (String.length int =? 0)%nat then None
  else if (1 <? String.length int)%nat && String.prefix "0" int then None
  else
    let frac_part : option (string * string) :=
      match s2 with
      | String c rest =>
          if (N_of_ascii c =? 46)%N then
            let '(fr, r) := take_digits rest in
            if (String.length fr =? 0)%nat then None else Some (fr, r)
          else Some ("", s2)
      | "" => Some ("", s2)
      end in
    match frac_part with
    | None => None
    | Some (fr, s3) =>
        let exp_part : option (Z * string) :=
          match s3 with
          | String c rest =>
              if (N_of_ascii c =? 101)%N || (N_of_ascii c =? 69)%N then
                let '(eneg, r1) :=
                  match rest with
                  | String g r =>
                      if (N_of_ascii g =? 45)%N then (true, r)
                      else if (N_of_ascii g =? 43)%N then (false, r)
                      else (false, rest)
                  | "" => (false, rest)
                  end in
                let '(ed, r2) := take_digits r1 in
                if (String.length ed =? 0)%nat then None
                else Some (if eneg then (- digits_value ed)%Z else digits_value ed, r2)
              else Some (0%Z, s3)
          | "" => Some (0%Z, s3)
          end in
        match exp_part with
        | None => None
        | Some (ex, s4) =>
            match decimal_to_float64 neg (digits_value (int ++ fr))
                    (ex - len fr)%Z with
            | Some f => Some (f, s4)
            | None => None
            end
        end
    end.

Definition drop_prefix (p s : string) : option string :=
  if String.prefix p s
  then Some (substring (String.length p) (String.length s - String.length p) s)
  else None.

(** A JSON value at the head of [s], and what follows it. *)
Fixpoint parse_value (fuel : nat) (s : string) : option (GoVal * string) :=
  match fuel with
  | O => None
  | S fuel =>
      match skip_ws s with
      | "" => None
      | String c rest as s' =>
          let n := N_of_ascii c in
          if (n =? 123)%N then parse_members fuel (skip_ws rest) ∅ true
          else if (n =? 91)%N then parse_elements fuel (skip_ws rest) [] true
          else if (n =? 34)%N then
            match parse_string rest 0 with
            | Some (str, r) => Some (VString str, r)
            | None => None
            end
          else
            match drop_prefix "null" s', drop_prefix "true" s', drop_prefix "false" s' with
            | Some r, _, _ => Some (VNil, r)
            | _, Some r, _ => Some (VBool true, r)
            | _, _, Some r => Some (VBool false, r)
            | _, _, _ =>
                match parse_number s' with
                | Some (f, r) => Some (VFloat64 f, r)
                | None => None
                end
            end
      end
  end
with parse_elements (fuel : nat) (s : string) (acc : list GoVal) (first : bool)
  : option (GoVal * string) :=
  match fuel with
  | O => None
  | S fuel =>
      match s with
      | "" => None
      | String c rest =>
          if first && (N_of_ascii c =? 93)%N then Some (VSlice acc, rest)
          else
            match parse_value fuel s with
            | None => None
            | Some (v, r) =>
                match skip_ws r with
                | String d r' =>
                    if (N_of_ascii d =? 44)%N
                    then parse_elements fuel (skip_ws r') (acc ++ [v])%list false
                    else if (N_of_ascii d =? 93)%N
                    then Some (VSlice (acc ++ [v])%list, r')
                    else None
                | "" => None
                end
            end
      end
  end
with parse_members (fuel : nat) (s : string) (acc : gmap string GoVal) (first : bool)
  : option (GoVal * string) :=
  match fuel with
  | O => None
  | S fuel =>
      match s with
      | "" => None
      | String c rest =>
          if first && (N_of_ascii c =? 125)%N then Some (VMap acc, rest)
          else if (N_of_ascii c =? 34)%N then
            match parse_string rest 0 with
            | None => None
            | Some (key, r) =>
                match skip_ws r with
                | String d r' =>
                    if (N_of_ascii d =? 58)%N then
                      match parse_value fuel r' with
                      | None => None
                      | Some (v, r2) =>
                          match skip_ws r2 with
                          | String g r3 =>
                              if (N_of_ascii g =? 44)%N
                              then parse_members fuel (skip_ws r3) (<[key := v]> acc) false
                              else if (N_of_ascii g =? 125)%N
                              then Some (VMap (<[key := v]> acc), r3)
                              else None
                          | "" => None
                          end
                      end
                    else None
                | "" => None
                end
            end
          else None
      end
  end.

Definition Unmarshal (src : string) : option GoVal :=
  match parse_value (2 * String.length src + 2) src with
  | Some (v, rest) => if String.eqb (skip_ws rest) "" then Some v else None
  | None => None
  end.

(** *** Header keys and query strings *)

(** The bytes of a header field name (an RFC 7230 token). *)
Definition valid_header_byte (c : ascii) : bool :=
  let n := N_of_ascii c in
  is_digit c
  || ((65 <=? n)%N && (n <=? 90)%N) || ((97 <=? n)%N && (n <=? 122)%N)
  || existsb (N.eqb n) [33; 35; 36; 37; 38; 39; 42; 43; 45; 46; 94; 95; 96; 124; 126]%N.

Fixpoint string_forall (f : ascii → bool) (s : string) : bool :=
  match s with
  | "" => true
  | String c rest => f c && string_forall f rest
  end.

(** Upper case at the start and after each dash, lower case elsewhere. *)
Fixpoint canonical_case (s : string) (upper : bool) : string :=
  match s with
  | "" => ""
  | String c rest =>
      let n := N_of_ascii c in
      let c' :=
        if upper && (97 <=? n)%N && (n <=? 122)%N then ascii_of_N (n - 32)
        else if negb upper && (65 <=? n)%N && (n <=? 90)%N then ascii_of_N (n + 32)
        else c in
      String c' (canonical_case rest (N_of_ascii c' =? 45)%N)
  end.

Definition CanonicalKey (s : string) : string :=
  if string_forall valid_header_byte s then canonical_case s true else s.

(** [strings.Split(s, sep)] for a separator of one byte *)
Fixpoint split_on (sep : ascii) (s : string) : list string :=
  match s with
  | "" => [""]
  | String c rest =>
      if Ascii.eqb c sep then "" :: split_on sep rest
      else
        match split_on sep rest with
        | x :: l => String c x :: l
        | [] => [String c ""]
        end
  end.

(** [strings.Cut(s, sep)] for a separator of one byte *)
Fixpoint cut_on (sep : ascii) (s : string) : string * string :=
  match s with
  | "" => ("", "")
  | String c rest =>
      if Ascii.eqb c sep then ("", rest)
      else let '(a, b) := cut_on sep rest in (String c a, b)
  end.

Definition upper_hex (n : N) : ascii :=
  ascii_of_N (if (n <? 10)%N then 48 + n else 55 + n).

(** [url.QueryEscape] *)
Fixpoint QueryEscape (s : string) : string :=
  match s with
  | "" => ""
  | String c rest =>
      let n := N_of_ascii c in
      (if is_digit c || ((65 <=? n)%N && (n <=? 90)%N) || ((97 <=? n)%N && (n <=? 122)%N)
          || existsb (N.eqb n) [45; 95; 46; 126]%N
       then String c ""
       else if (n =? 32)%N then "+"
       else String "%" (String (upper_hex (n / 16)) (String (upper_hex (n mod 16)) "")))
      ++ QueryEscape rest
  end.

(** [url.QueryUnescape]; [None] on a malformed escape *)
Fixpoint QueryUnescape (s : string) : option string :=
  match s with
  | "" => Some ""
  | String c rest =>
      if (N_of_ascii c =? 37)%N then
        match rest with
        | String a (String b rest') =>
            match hex_val a, hex_val b, QueryUnescape rest' with
            | Some x, Some y, Some r => Some (String (ascii_of_N (x * 16 + y)) r)
            | _, _, _ => None
            end
        | _ => None
        end
      else
        match QueryUnescape rest with
        | Some r => Some (String (if (N_of_ascii c =? 43)%N then " "%char else c) r)
        | None => None
        end
  end.

Definition contains_byte (n : N) (s : string) : bool :=
  existsb (λ c, (N_of_ascii c =? n)%N) (list_ascii_of_string s).

(** [url.ParseQuery], pairs in error left out *)
Definition ParseQuery (query : string) : gmap string (list string) :=
  foldl
    (λ m pair,
       if contains_byte 59 pair || String.eqb pair "" then m
       else
         let '(k, v) := cut_on "="%char pair in
         match QueryUnescape k, QueryUnescape v with
         | Some k', Some v' => strings_append m k' v'
         | _, _ => m
         end)
    ∅ (split_on "&"%char query).

(** [url.Values.Encode]: the keys in order, each with its values in order *)
Definition Encode (v : gmap string (list string)) : string :=
  Join
    (concat
       (map (λ kv : string * list string,
               map (λ x, QueryEscape kv.1 ++ "=" ++ QueryEscape x) kv.2)
            (sorted_entries v)))
    "&".

(** *** m.GetOK *)

(** The path resolved segment by segment through nested maps: the last
    segment is looked up, the others must lead to a map. *)
Fixpoint get_path (obj : gmap string GoVal) (segs : list string) : GoVal * bool :=
  match segs with
  | [] => (VMap obj, true)
  | [field] =>
      match obj !! field with
      | Some value => (value, true)
      | None => (VNil, false)
      end
  | field :: rest =>
      match obj !! field with
      | Some (VMap inner) => get_path inner rest
      | _ => (VNil, false)
      end
  end.

Definition GetOK (m : gmap string GoVal) (keypath : string) : GoVal * bool :=
  get_path m (split_on "."%char keypath).

End Ref.

(** The instance of the libraries on which the examples run. *)
Definition goRef : GoLib := {|
  Regexp := Ref.Re;
  regexp_Compile := Ref.compile;
  regexp_Match := λ re s, Ref.search re s true;
  fmt_float64 := Ref.format_g;
  json_float64 := Ref.format_json;
  json_Unmarshal := Ref.Unmarshal;
  CanonicalMIMEHeaderKey := Ref.CanonicalKey;
  url_ParseQuery := Ref.ParseQuery;
  url_Encode := Ref.Encode;
  m_GetOK := Ref.GetOK;
|}.

(** An instance of the rest of package [parse] for the examples: lines
    joined by line feeds, a detail printed as its key and value, and the
    documents of a table [docs]. *)
Definition parseRef (docs : list (string * (Group + error))) : ParsePkg := {|
  Lines_Join := λ l, Bytes (Join (map LineBytes l) newline);
  Lines_String := λ l, Join (map LineBytes l) newline;
  Lines_Reader := λ l, Join (map LineBytes l) newline;
  Lines_Number := λ l, match l with x :: _ => Number x | [] => 0%Z end;
  Detail_String := λ d, Key d ++ ": " ++ @Sprint_s_Value goRef (DetailValue d);
  parse_document := λ f,
    match list_find (λ kv, kv.1 = f) docs with
    | Some (_, (_, res)) => res
    | None => inr ("open " ++ f ++ ": no such file or directory")
    end;
|}.

(** ** The statements about the runner

    The vocabulary in which the properties below are stated. *)

(** An assertion function passes when it returns [true]. *)
Definition passes (m : Run bool) : Prop := m.2 = inl true.

(** An assertion function fails when it returns [false]. *)
Definition fails (m : Run bool) : Prop := m.2 = inl false.

(** A turn of the loop over the expected details goes on to the next entry,
    or reports a failure and leaves [runRequest]. *)
Definition goes_to_next {A} (m : Run A) : Prop := ∃ a, m.2 = inl a.

Definition reports_failure {A} (m : Run A) : Prop :=
  m.2 = inr Failed ∧ ∃ tr line, m.1 = (tr ++ [ELog line; EFailNow])%list.

(** The request handed to the transport, read off the trace. *)
Fixpoint sent_request (tr : list Event) : option HttpRequest :=
  match tr with
  | [] => None
  | ERoundTrip q :: _ => Some q
  | _ :: tr' => sent_request tr'
  end.

Definition is_RoundTrip (e : Event) : bool :=
  match e with
  | ERoundTrip _ => true
  | _ => false
  end.

Definition is_ParseBody (e : Event) : bool :=
  match e with
  | EParseBody _ => true
  | _ => false
  end.

(** No request is made in a trace: the transport is never called, and no
    request is even built. *)
Definition no_request_made (tr : list Event) : Prop :=
  ∀ e, e ∈ tr → match e with
                | ENewRequest _ _ _ | ERoundTrip _ => False
                | _ => True
                end.

Definition set_ExpectedDetails (req : Request) (eds : Lines) : Request :=
  {| Method := Method req; Path := Path req; Body := Body req;
     Details := Details req; Params := Params req;
     ExpectedBody := ExpectedBody req; ExpectedDetails := eds |}.

Section Statements.
Context `{GoLib} `{ParsePkg}.

(** The line that [fail] logs. *)
Definition fail_line (group : Group) (req : Request) (line : Z) (what : string)
  : string :=
  Join ["--- FAIL:"; Method req; Path req; newline;
        Filename group ++ ":" ++ Itoa line; what; " "] " ".

(** The line that [assertDetail] and [assertData] log for a value that
    differs from the expected one. *)
Definition mismatch_line (key : string) (actual : GoVal) (expected : Value) : string :=
  Join [key;
        "expected " ++ Value_Type expected ++ ": " ++ Sprint_s_Value expected
        ++ "  actual " ++ Sprint_T actual ++ ": "
        ++ Sprint_s_Value (ParseValue (Sprint_v actual));
        " "] " ".

(** The log line of [assertData] for a path that resolves to nothing. *)
Definition missing_line (key : string) (expected : Value) : string :=
  Join [key;
        "expected " ++ Value_Type expected ++ ": " ++ Sprint_s_Value expected
        ++ "  actual: (missing)";
        " "] " ".

(** C1 as the spec words it: the path decides alone, whatever was parsed. *)
Definition data_path_claim (data : GoVal) (key : string) (expected : Value) : Prop :=
  match m_GetOK {["Data" := data]} key with
  | (_, false) =>
      passes (assertData data None key expected) ↔ Data expected = VNil
  | (actual, true) =>
      passes (assertData data None key expected)
      ↔ Value_Equal expected actual = Ok true
  end.

(** What [assertData] does for a body that was parsed to a value. *)
Definition data_path_verdict (data : GoVal) (key : string) (expected : Value) : Prop :=
  match m_GetOK {["Data" := data]} key with
  | (_, false) =>
      (passes (assertData data None key expected) ↔ Data expected = VNil)
      ∧ (Data expected ≠ VNil →
         assertData data None key expected
         = ([ELog (missing_line key expected)], inl false))
  | (actual, true) =>
      passes (assertData data None key expected)
      ↔ Value_Equal expected actual = Ok true
  end.

(** C3 as the spec words it: every detail is sent as its [String()]. *)
Definition details_sent_as_String (r : Runner) (group : Group) (req : Request) : Prop :=
  ∀ httpReq line s,
    sent_request (runRequest r group req).1 = Some httpReq →
    line ∈ Details req →
    Value_String (DetailValue (LineDetail line)) = Ok s →
    s ∈ default [] (ReqHeader httpReq
                      !! CanonicalMIMEHeaderKey (Key (LineDetail line))).


(** What a turn of the loop does for a key without the prefix [Data]. *)
Definition plain_detail_verdict (r : Runner) (group : Group) (req : Request)
    (responseDetails : gmap string GoVal) (actualBody : string)
    (cache : option (GoVal * option error)) (line : Line) : Prop :=
  let turn := check_detail r group req responseDetails actualBody cache line in
  match responseDetails !! Key (LineDetail line) with
  | None => reports_failure turn
  | Some actual =>
      (goes_to_next turn
       ↔ iface_eq actual (Data (DetailValue (LineDetail line))) = Ok true)
      ∧ (iface_eq actual (Data (DetailValue (LineDetail line))) = Ok false →
         reports_failure turn)
  end.

(** C6 as the spec words it, for every header name. *)
Definition last_value_claim (httpRes : HttpResponse) : Prop :=
  (∀ k vs v, Header httpRes !! k = Some vs → (1 < List.length vs)%nat →
             last vs = Some v →
             responseDetails_of httpRes !! k = Some (VString v))
  ∧ responseDetails_of httpRes !! "Status"
    = Some (VFloat64 (float64_of_int (StatusCode httpRes))).

(** The trace of a body that differs from the expected one. *)
Definition body_mismatch_trace (group : Group) (req : Request)
    (actualBody : string) : list Event :=
  [ELog (Join ["body expected:"; " "] " ");
   ELog (Join ["```"; " "] " ");
   ELog (Join [string_of_bytes (Lines_Join (ExpectedBody req)); " "] " ");
   ELog (Join ["```"; " "] " ");
   ELog (Join ["actual:"; " "] " ");
   ELog (Join ["```"; " "] " ");
   ELog (Join [actualBody; " "] " ");
   ELog (Join ["```"; " "] " ");
   ELog (fail_line group req (Lines_Number (ExpectedBody req)) "- body doesn't match");
   EFailNow].

End Statements.

(** ** The inputs of the examples *)

(** The body [{"user":{"name":"Mat"}}], decoded. *)
Definition user_body : GoVal := VMap {["user" := VMap {["name" := VString "Mat"]}]}.

(** A bullet line [* key: value] at line [n]. *)
Definition detail_line (n : Z) (key : string) (v : GoVal) : Line :=
  {| Number := n; LineBytes := "";
     LineDetail := {| Key := key; DetailValue := {| Data := v |} |} |}.

(** A line of a fenced block. *)
Definition body_line (n : Z) (bytes : string) : Line :=
  {| Number := n; LineBytes := bytes;
     LineDetail := {| Key := ""; DetailValue := {| Data := VNil |} |} |}.

(** The request of the fixture: [GET /hello] with the parameter [name=Mat],
    expecting status 200, a content type, and the body [Hello Mat.] *)
Definition hello_request : Request :=
  {| Method := "GET"; Path := "/hello"; Body := [];
     Details := [];
     Params := [detail_line 7 "name" (VString "Mat")];
     ExpectedBody := [body_line 15 "Hello Mat."];
     ExpectedDetails :=
       [detail_line 11 "Status" (VFloat64 (float64_of_int 200));
        detail_line 12 "Content-Type" (VString "text/html; charset=utf-8")] |}.

Definition hello_group : Group :=
  {| Filename := "hello.silk.md"; Title := "Hello API"; Requests := [hello_request] |}.

(** A server that answers every request with the given headers and body. *)
Definition fixed_response (header : gmap string (list string)) (body : string)
  : HttpResponse :=
  {| StatusCode := 200; Header := header; BodyRead := inl body |}.

Definition hello_header : gmap string (list string) :=
  {["Content-Type" := ["text/html; charset=utf-8"]]}.

(** A runner whose transport is that server and whose body parser is the
    JSON decoder, as [testing.T] drives it. *)
Definition fixed_runner (header : gmap string (list string)) (body : string) : Runner :=
  {| FailNowReturns := false;
     rootURL := "http://localhost:8080";
     RoundTripper := λ _, inl (fixed_response header body);
     ParseBody := λ b,
       match Ref.Unmarshal b with
       | Some v => (v, None)
       | None => (VNil, Some "invalid JSON")
       end;
     NewRequest := λ m u body,
       inl {| ReqMethod := m; ReqURL := {| URLBase := u; RawQuery := "" |};
              ReqHeader := ∅; ReqBody := body |} |}.

(** The trace of a turn that fails at [line]: it ends with the failure of
    [line], reported once. *)
Definition first_failure_trace (group : Group) (req : Request) (tr : list Event)
    (line : Line) : Prop :=
  ∃ pre what,
    tr = (pre ++ [ELog (fail_line group req (Number line) what); EFailNow])%list
    ∧ (EFailNow ∉ pre).

(** The fixture's request with a header to send and no expected body. *)
Definition accept_request : Request :=
  {| Method := "GET"; Path := "/hello"; Body := [];
     Details := [detail_line 5 "accept" (VString "text/plain")];
     Params := [detail_line 7 "name" (VString "Mat")];
     ExpectedBody := [];
     ExpectedDetails := [] |}.

(** Two documents, of which the second does not parse. *)
Definition example_docs : list (string * (Group + error)) :=
  [("hello.silk.md", inl hello_group);
   ("broken.silk.md", inr "broken.silk.md:3: invalid value: {oops (did you forget quotes?)")].

Section Outbound.
Context `{GoLib} `{ParsePkg}.

(** The reader that [runRequest] hands to [NewRequest]. *)
Definition request_body (req : Request) : option string :=
  if bool_decide (0 < List.length (Body req))
  then Some (Lines_Reader (Body req)) else None.

(** The request that [runRequest] hands to the transport, computed without
    the trace: the headers and the parameters added to the request that
    [NewRequest] returned. *)
Definition outbound_header (req : Request) (httpReq : HttpRequest) : StringsMap :=
  foldl (λ h line,
           Header_Add h (Key (LineDetail line))
             (Sprint_v (Data (DetailValue (LineDetail line)))))
        (Header_Add (ReqHeader httpReq) "Content-Length"
           (Itoa (len (Lines_String (Body req)))))
        (Details req).

Definition outbound_query (req : Request) (httpReq : HttpRequest) : StringsMap :=
  foldl (λ q line,
           Values_Add q (Key (LineDetail line))
             (Sprint_v (Data (DetailValue (LineDetail line)))))
        (url_ParseQuery (RawQuery (ReqURL httpReq)))
        (Params req).

Definition outbound_request (req : Request) (httpReq : HttpRequest) : HttpRequest :=
  {| ReqMethod := ReqMethod httpReq;
     ReqURL := {| URLBase := URLBase (ReqURL httpReq);
                  RawQuery := url_Encode (outbound_query req httpReq) |};
     ReqHeader := outbound_header req httpReq;
     ReqBody := ReqBody httpReq |}.

(** What [runRequest] does up to the call of the transport. *)
Definition request_trace (r : Runner) (req : Request) (httpReq : HttpRequest)
  : list Event :=
  ([EVerbose [VString (Method req); VString (rootURL r ++ Path req)];
    ENewRequest (Method req) (rootURL r ++ Path req) (request_body req);
    EVerbose [VString indent; VString "Content-Length:";
              VInt (len (Lines_String (Body req)))]]
   ++ map (λ line, EVerbose [VString indent; VString (Detail_String (LineDetail line))])
        (Details req)
   ++ map (λ line, EVerbose [VString indent; VString (Detail_String (LineDetail line))])
        (Params req)
   ++ [ERoundTrip (outbound_request req httpReq)])%list.

End Outbound.

(** The request that [NewRequest] of [fixed_runner] returns for the fixture. *)
Definition hello_base_request : HttpRequest :=
  {| ReqMethod := "GET";
     ReqURL := {| URLBase := "http://localhost:8080/hello"; RawQuery := "" |};
     ReqHeader := ∅; ReqBody := None |}.

(** The fixture's request with two expectations that the fixture's response
    does not meet: the status 404, then a JSON content type. *)
Definition two_failures_request : Request :=
  set_ExpectedDetails hello_request
    [detail_line 11 "Status" (VFloat64 (float64_of_int 404));
     detail_line 12 "Content-Type" (VString "application/json")].

(** How many times a trace calls the body parser. *)
Fixpoint count_ParseBody (tr : list Event) : nat :=
  match tr with
  | [] => 0
  | e :: tr' => ((if is_ParseBody e then 1 else 0) + count_ParseBody tr')%nat
  end.

(** ** Shapes of traces *)

Definition is_FailNow (e : Event) : bool :=
  match e with
  | EFailNow => true
  | _ => false
  end.

Definition is_Log (e : Event) : bool :=
  match e with
  | ELog _ => true
  | _ => false
  end.

Definition is_Close (e : Event) : bool :=
  match e with
  | EBodyClose => true
  | _ => false
  end.

(** How many events of a trace satisfy [p]. *)
Definition count_events (p : Event → bool) (tr : list Event) : nat :=
  List.length (List.filter p tr).

(** The events of the checks that report nothing: calls of the body parser. *)
Definition quiet (tr : list Event) : Prop := Forall (λ e, is_ParseBody e = true) tr.

(** The events before a failure is signalled: calls of the body parser and
    log lines. *)
Definition unsignalled (tr : list Event) : Prop :=
  Forall (λ e, is_ParseBody e || is_Log e = true) tr.

(** The discipline of the checks of a response: they go on or panic without
    a report, or fail with a log line right before the one [FailNow]; they
    never leave with another verdict. *)
Definition disciplined {A} (m : Run A) : Prop :=
  match m.2 with
  | inl _ => quiet m.1
  | inr Failed =>
      ∃ pre line, m.1 = (pre ++ [ELog line; EFailNow])%list ∧ unsignalled pre
  | inr (Panicked _) => quiet m.1
  | inr Completed => False
  end.

(** A value that [==] compares with itself to [true]: nil, a boolean, an
    [int], a [float64] other than NaN, a string. *)
Definition self_equal (d : GoVal) : Prop :=
  match d with
  | VNil | VBool _ | VInt _ | VString _ => True
  | VFloat64 f => f ≠ S754_nan
  | VSlice _ | VMap _ => False
  end.

(** The values that a list of lines gives to the key [k], in order. *)
Definition values_for (key_of : Line → string) (value_of : Line → string)
    (k : string) (l : Lines) : list string :=
  map value_of (List.filter (λ line, bool_decide (key_of line = k)) l).

(** The fixture's request with the same header given twice, in two
    spellings. *)
Definition repeated_header_request : Request :=
  {| Method := "GET"; Path := "/hello"; Body := [];
     Details := [detail_line 5 "accept" (VString "text/plain");
                 detail_line 6 "Accept" (VString "text/html")];
     Params := [detail_line 7 "name" (VString "Mat");
                detail_line 8 "name" (VFloat64 (float64_of_int 7))];
     ExpectedBody := [];
     ExpectedDetails := [] |}.

(** ** The loops over requests and groups *)

Definition is_Failed (v : Verdict) : bool :=
  match v with
  | Failed => true
  | _ => false
  end.

Section Loops.
Context `{GoLib} `{ParsePkg}.

(** A request after which the loop of its group goes on. *)
Definition request_goes_on (r : Runner) (group : Group) (req : Request) : bool :=
  goes_on r (runRequest r group req).2.

(** The traces of the requests [reqs] of [group], one after the other. *)
Definition request_traces (r : Runner) (group : Group) (reqs : list Request)
  : list Event :=
  concat (map (λ req, (runRequest r group req).1) reqs).

(** The traces of all the requests of [groups]. *)
Definition group_traces (r : Runner) (groups : list Group) : list Event :=
  concat (map (λ group, request_traces r group (Requests group)) groups).

(** Whether a request of [groups] fails. *)
Definition any_failed (r : Runner) (groups : list Group) : bool :=
  existsb (λ group,
    existsb (λ req, is_Failed (runRequest r group req).2) (Requests group)) groups.
End Loops.

(** A group whose first request fails on the fixed server, before the
    fixture's request. *)
Definition failing_group : Group :=
  {| Filename := "failing.silk.md"; Title := "Failing";
     Requests := [two_failures_request; hello_request] |}.

(** The fixed server behind a [T] whose [FailNow] returns. *)
Definition lenient_runner (header : gmap string (list string)) (body : string)
  : Runner :=
  {| FailNowReturns := true;
     rootURL := rootURL (fixed_runner header body);
     RoundTripper := RoundTripper (fixed_runner header body);
     ParseBody := ParseBody (fixed_runner header body);
     NewRequest := NewRequest (fixed_runner header body) |}.

(** ** Failures of the exchange *)

Section Exchange.
Context `{GoLib} `{ParsePkg}.

(** The line that [runRequest] logs when the exchange itself fails: the
    request cannot be built, the transport returns an error, or the body of
    the response cannot be read. *)
Definition exchange_error (r : Runner) (req : Request) : option string :=
  match NewRequest r (Method req) (rootURL r ++ Path req) (request_body req) with
  | inr err => Some (Join ["invalid request: "; err; " "] " ")
  | inl httpReq0 =>
      match RoundTripper r (outbound_request req httpReq0) with
      | inr err => Some (Join [err; " "] " ")
      | inl httpRes =>
          match BodyRead httpRes with
          | inr err => Some (Join ["failed to read body: "; err; " "] " ")
          | inl _ => None
          end
      end
  end.

(** What [runRequest] does before that line. *)
Definition exchange_prefix (r : Runner) (req : Request) : list Event :=
  match NewRequest r (Method req) (rootURL r ++ Path req) (request_body req) with
  | inr _ =>
      [EVerbose [VString (Method req); VString (rootURL r ++ Path req)];
       ENewRequest (Method req) (rootURL r ++ Path req) (request_body req)]
  | inl httpReq0 => request_trace r req httpReq0
  end.

(** The deferred call that runs after it, once there is a response. *)
Definition exchange_closed (r : Runner) (req : Request) : list Event :=
  match NewRequest r (Method req) (rootURL r ++ Path req) (request_body req) with
  | inr _ => []
  | inl httpReq0 =>
      match RoundTripper r (outbound_request req httpReq0) with
      | inr _ => []
      | inl _ => [EBodyClose]
      end
  end.
End Exchange.

(** Two requests that differ at most in what they expect of the response. *)
Definition same_exchange (req req' : Request) : Prop :=
  Method req' = Method req ∧ Path req' = Path req ∧ Body req' = Body req
  ∧ Details req' = Details req ∧ Params req' = Params req.

(** The fixture's runner behind a transport that fails. *)
Definition broken_runner : Runner :=
  {| FailNowReturns := false;
     rootURL := "http://localhost:8080";
     RoundTripper := λ _, inr "connection refused";
     ParseBody := ParseBody (fixed_runner ∅ "");
     NewRequest := NewRequest (fixed_runner ∅ "") |}.

(** The fixture's runner behind a server that answers every request with
    the status 500. *)
Definition server_error_runner : Runner :=
  {| FailNowReturns := false;
     rootURL := "http://localhost:8080";
     RoundTripper := λ _,
       inl {| StatusCode := 500; Header := ∅; BodyRead := inl "internal error" |};
     ParseBody := ParseBody (fixed_runner ∅ "");
     NewRequest := NewRequest (fixed_runner ∅ "") |}.

(** ** The pattern of a delimited string *)

(** The text between the leading and the trailing slash of [str]. *)
Definition inner_pattern (str : string) : string :=
  substring 1 (String.length str - 2) str.

(** C2 as the spec words it: when [str] has a leading and a trailing slash,
    [Equal] compiles the inner pattern, and what it returns is the test of
    that pattern against the rendering of the other value. *)
Definition regex_tested `{GoLib} (str : string) (other : GoVal) : Prop :=
  HasPrefix str "/" = true → HasSuffix str "/" = true →
  ∀ regex, regexp_Compile (inner_pattern str) = inl regex →
    Value_Equal {| Data := VString str |} other
    = Ok (regexp_Match regex (Sprint_v other)).

(** * Properties *)

(** ** Strings and slices *)

Lemma length_append (a b : string) :
  String.length (a ++ b) = (String.length a + String.length b)%nat.
Proof. induction a as [|c a IH]; [reflexivity | simpl; by rewrite IH]. Qed.

Lemma substring_whole_prefix (a b : string) :
  substring 0 (String.length a) (a ++ b) = a.
Proof. induction a as [|c a IH]; [by destruct b | simpl; by rewrite IH]. Qed.

Lemma substring_last (a : string) (c : ascii) :
  substring (String.length a) 1 (a ++ String c "") = String c "".
Proof. induction a as [|d a IH]; [reflexivity | exact IH]. Qed.

Lemma HasPrefix_delimited (pat : string) : HasPrefix ("/" ++ pat ++ "/") "/" = true.
Proof. by destruct pat. Qed.

Lemma delimited_length (pat : string) :
  String.length ("/" ++ pat ++ "/") = S (S (String.length pat)).
Proof.
  change ("/" ++ pat ++ "/") with (String "/" (pat ++ "/")).
  cbn [String.length]. rewrite length_append. cbn [String.length]. lia.
Qed.

Lemma HasSuffix_delimited (pat : string) : HasSuffix ("/" ++ pat ++ "/") "/" = true.
Proof.
  unfold HasSuffix. rewrite delimited_length.
  change ("/" ++ pat ++ "/") with (String "/" (pat ++ "/")).
  change (String.length "/") with 1%nat.
  replace (S (S (String.length pat)) - 1)%nat with (S (String.length pat)) by lia.
  cbn [substring]. rewrite substring_last. reflexivity.
Qed.

Lemma slice_delimited (pat : string) :
  slice_string ("/" ++ pat ++ "/") 1 (len ("/" ++ pat ++ "/") - 1) = Ok pat.
Proof.
  unfold slice_string, len. rewrite delimited_length.
  change ("/" ++ pat ++ "/") with (String "/" (pat ++ "/")).
  replace (Z.of_nat (S (S (String.length pat))) - 1 - 1)%Z
    with (Z.of_nat (String.length pat)) by lia.
  rewrite Nat2Z.id. change (Z.to_nat 1) with 1%nat. cbn [substring].
  rewrite substring_whole_prefix.
  destruct (_ && _) eqn:E; [done|].
  exfalso. rewrite !andb_false_iff, !Z.leb_gt in E. lia.
Qed.

(** A string that both starts and ends with a slash is the slash alone or a
    pattern between two slashes. *)
Lemma delimited_inv (str : string) :
  HasPrefix str "/" = true → HasSuffix str "/" = true →
  str = "/" ∨ ∃ pat, str = "/" ++ pat ++ "/".
Proof.
  unfold HasPrefix, HasSuffix. intros Hp Hs.
  destruct str as [|c rest]; [done|].
  cbn [String.prefix] in Hp.
  destruct (ascii_dec "/" c) as [<-|]; [|done].
  destruct rest as [|d rest]; [by left|right].
  apply andb_true_iff in Hs as [_ Hs]. apply String.eqb_eq in Hs.
  cbn [String.length] in Hs.
  replace (S (S (String.length rest)) - 1)%nat with (S (String.length rest)) in Hs by lia.
  cbn [substring] in Hs.
  clear Hp. revert d Hs. induction rest as [|e rest IH]; intros d Hs.
  - exists "". cbn in Hs. by rewrite Hs.
  - cbn [String.length substring] in Hs. destruct (IH e Hs) as [pat Hpat].
    change ("/" ++ pat ++ "/") with (String "/" (pat ++ "/")) in Hpat.
    injection Hpat as Hpat. exists (String d pat).
    change ("/" ++ String d pat ++ "/") with (String "/" (String d (pat ++ "/"))).
    by rewrite Hpat.
Qed.

(** ** The value model *)

Section ValueFacts.
Context `{GoLib}.

(** What [Equal] does on a pattern between slashes. *)
Lemma Value_Equal_delimited (pat : string) (val : GoVal) :
  Value_Equal {| Data := VString ("/" ++ pat ++ "/") |} val =
  match regexp_Compile pat with
  | inl regex =>
      if regexp_Match regex (Sprint_v val) then Ok true
      else iface_eq (VString ("/" ++ pat ++ "/")) val
  | inr err => Panic (MustCompilePanic pat err)
  end.
Proof.
  unfold Value_Equal. cbn [Data].
  rewrite HasPrefix_delimited, HasSuffix_delimited. cbn [andb].
  rewrite slice_delimited. unfold MustCompile, mbind, Result_bind, bindR.
  destruct (regexp_Compile pat); reflexivity.
Qed.

Lemma Value_Type_delimited (pat : string) :
  Value_Type {| Data := VString ("/" ++ pat ++ "/") |} = "regex".
Proof.
  unfold Value_Type. cbn [Data].
  by rewrite HasPrefix_delimited, HasSuffix_delimited.
Qed.

(** On [Data] that is not a string, [Equal] is [==]. *)
Lemma Value_Equal_not_string (d val : GoVal) :
  (∀ s, d ≠ VString s) → Value_Equal {| Data := d |} val = iface_eq d val.
Proof. intros Hd. unfold Value_Equal. destruct d; try reflexivity. by destruct (Hd s). Qed.

End ValueFacts.

Lemma inner_pattern_delimited (pat : string) :
  inner_pattern ("/" ++ pat ++ "/") = pat.
Proof.
  unfold inner_pattern. rewrite delimited_length.
  change ("/" ++ pat ++ "/") with (String "/" (pat ++ "/")).
  replace (S (S (String.length pat)) - 2)%nat with (String.length pat) by lia.
  cbn [substring]. apply substring_whole_prefix.
Qed.

(** C2, amended.  For every [Value] whose [Data] is a string with a leading
    and a trailing slash and a pattern between them (any such string but
    the slash alone), [Type] returns "regex" and [Equal] compiles the inner
    pattern and tests it against the [%v] rendering of the other value,
    whatever the dynamic type of that value: a match gives [true]; without
    a match the result is that of [Data == other]; a pattern that does not
    compile makes [MustCompile] panic.  In particular
    [ParseValue("/^[0-9]+$/")] equals "123" (and the number 123), does not
    equal "abc", and is of type "regex". *)
Theorem Value_Equal_regex :
  (∀ (lib : GoLib) (str : string) (other : GoVal),
     HasPrefix str "/" = true → HasSuffix str "/" = true → str ≠ "/" →
     Value_Type {| Data := VString str |} = "regex"
     ∧ Value_Equal {| Data := VString str |} other
       = match regexp_Compile (inner_pattern str) with
         | inl regex =>
             if regexp_Match regex (Sprint_v other) then Ok true
             else iface_eq (VString str) other
         | inr err => Panic (MustCompilePanic (inner_pattern str) err)
         end)
  ∧ (∀ (lib : GoLib) (pat : string) (other : GoVal),
       Value_Type {| Data := VString ("/" ++ pat ++ "/") |} = "regex"
       ∧ Value_Equal {| Data := VString ("/" ++ pat ++ "/") |} other
         = match regexp_Compile pat with
           | inl regex =>
               if regexp_Match regex (Sprint_v other) then Ok true
               else iface_eq (VString ("/" ++ pat ++ "/")) other
           | inr err => Panic (MustCompilePanic pat err)
           end)
  ∧ @Value_Equal goRef (@ParseValue goRef "/^[0-9]+$/") (VString "123") = Ok true
  ∧ @Value_Equal goRef (@ParseValue goRef "/^[0-9]+$/") (VString "abc") = Ok false
  ∧ @Value_Equal goRef (@ParseValue goRef "/^[0-9]+$/")
      (VFloat64 (float64_of_int 123)) = Ok true
  ∧ Value_Type (@ParseValue goRef "/^[0-9]+$/") = "regex".
Proof.
  split; [|split; [|by vm_compute]].
  - intros lib str other Hp Hs Hne.
    destruct (delimited_inv str Hp Hs) as [->|[pat ->]]; [done|].
    rewrite inner_pattern_delimited. split.
    + apply Value_Type_delimited.
    + apply Value_Equal_delimited.
  - intros lib pat other. split.
    + apply Value_Type_delimited.
    + apply Value_Equal_delimited.
Qed.

(** C2 on the pattern of the spec and the number 123, which is matched
    through its rendering. *)
Lemma Value_Equal_regex_witness :
  HasPrefix "/^[0-9]+$/" "/" = true
  ∧ HasSuffix "/^[0-9]+$/" "/" = true
  ∧ "/^[0-9]+$/" ≠ "/"
  ∧ Value_Type {| Data := VString "/^[0-9]+$/" |} = "regex"
  ∧ @Value_Equal goRef {| Data := VString "/^[0-9]+$/" |} (VInt 123) = Ok true
  ∧ @Value_Equal goRef {| Data := VString "/^[0-9]+$/" |} (VString "12a") = Ok false.
Proof.
  split; [reflexivity|]. split; [reflexivity|]. split; [discriminate|].
  destruct (proj1 Value_Equal_regex goRef "/^[0-9]+$/" (VInt 123)
              eq_refl eq_refl ltac:(discriminate)) as [Hty Heq].
  destruct (proj1 Value_Equal_regex goRef "/^[0-9]+$/" (VString "12a")
              eq_refl eq_refl ltac:(discriminate)) as [_ Hne].
  split; [exact Hty|]. split.
  - rewrite Heq. vm_compute. reflexivity.
  - rewrite Hne. vm_compute. reflexivity.
Defined.

(** C2 as stated fails.  A pattern between slashes that does not match the
    rendering of the other value does not settle the result: [Equal] goes
    on to [==], so that "/^x$/" equals the string "/^x$/", which its pattern
    does not match.  And the slash alone, which has a leading and a trailing
    slash, has no pattern to compile: [Equal] returns nothing there. *)
Lemma Value_Equal_regex_counterexample :
  ¬ @regex_tested goRef "/^x$/" (VString "/^x$/")
  ∧ @ParseValue goRef "/" = {| Data := VString "/" |}
  ∧ ¬ @regex_tested goRef "/" (VString "123").
Proof.
  split; [|split; [by vm_compute|]].
  - intros Htested. specialize (Htested eq_refl eq_refl).
    destruct (@regexp_Compile goRef (inner_pattern "/^x$/")) as [regex|err] eqn:Hre;
      [|vm_compute in Hre; discriminate Hre].
    specialize (Htested regex eq_refl).
    vm_compute in Hre. injection Hre as <-.
    vm_compute in Htested. discriminate Htested.
  - intros Htested. specialize (Htested eq_refl eq_refl).
    destruct (@regexp_Compile goRef (inner_pattern "/")) as [regex|err] eqn:Hre;
      [|vm_compute in Hre; discriminate Hre].
    specialize (Htested regex eq_refl). discriminate Htested.
Qed.

(** X1. The slash alone starts and ends with a slash too: [Type] says
    "regex", and the slice expression of [Equal] panics before any pattern
    is compiled. *)
Lemma Value_Equal_lone_slash `{GoLib} (other : GoVal) :
  Value_Type {| Data := VString "/" |} = "regex"
  ∧ Value_Equal {| Data := VString "/" |} other
    = Panic (RuntimeError "slice bounds out of range").
Proof. split; reflexivity. Qed.




(** C10. [Equal] does not always return a boolean: on a pattern between
    slashes that does not compile, [regexp.MustCompile] panics, whatever the
    other value is; "/(/" is such a [Data]. *)
Theorem Value_Equal_not_total :
  (∀ (lib : GoLib) (pat : string) (err : error) (other : GoVal),
     regexp_Compile pat = inr err →
     Value_Equal {| Data := VString ("/" ++ pat ++ "/") |} other
     = Panic (MustCompilePanic pat err))
  ∧ (∀ other : GoVal,
       @Value_Equal goRef {| Data := VString "/(/" |} other
       = Panic (MustCompilePanic "(" "missing closing )")).
Proof.
  split.
  - intros lib pat err other Herr. rewrite Value_Equal_delimited. by rewrite Herr.
  - intros other. apply (@Value_Equal_delimited goRef "(" other).
Qed.

(** ** The runner's assertions *)

Lemma is_nil_true (x : GoVal) : is_nil x = true ↔ x = VNil.
Proof. by destruct x. Qed.

Lemma is_nil_false (x : GoVal) : is_nil x = false ↔ x ≠ VNil.
Proof. by destruct x. Qed.

Section AssertFacts.
Context `{GoLib} `{ParsePkg}.

Lemma assertData_parse_error (data : GoVal) (err : error) (key : string)
    (expected : Value) :
  fails (assertData data (Some err) key expected).
Proof. reflexivity. Qed.

Lemma assertData_no_data (key : string) (expected : Value) :
  fails (assertData VNil None key expected).
Proof. reflexivity. Qed.

Lemma assertData_parsed (data : GoVal) (key : string) (expected : Value) :
  data ≠ VNil → data_path_verdict data key expected.
Proof.
  intros Hdata%is_nil_false. unfold data_path_verdict, passes, assertData.
  rewrite Hdata. destruct (m_GetOK _ key) as [actual [|]]; cbn [negb andb].
  - destruct (Value_Equal expected actual) as [[|]|p]; cbn; split; congruence.
  - destruct (is_nil (Data expected)) eqn:Hexp; cbn.
    + apply is_nil_true in Hexp. split; [done|]. by intros [].
    + apply is_nil_false in Hexp. split; [|done]. split; [done|]. by intros ?.
Qed.

End AssertFacts.

(** C1, amended.  For a key [Data] or [Data.<path>]: when the body parser
    returned an error, or data that is nil, the assertion fails.  Otherwise,
    when the path resolves to nothing the assertion passes if and only if the
    expected [Data] is nil, and else fails with the "(missing)" line as its
    only log; when the path resolves to a value the assertion passes if and
    only if [Equal] of the expected value accepts it. *)
Theorem assertData_verdict (lib : GoLib) (data : GoVal) (key : string)
    (expected : Value) :
  (∀ err, fails (assertData data (Some err) key expected))
  ∧ (data = VNil → fails (assertData data None key expected))
  ∧ (data ≠ VNil → data_path_verdict data key expected).
Proof.
  split; [|split].
  - intros err. apply assertData_parse_error.
  - intros ->. apply assertData_no_data.
  - apply assertData_parsed.
Qed.

(** C1 as stated fails: the body parsed to nil, so the path [Data.user.age]
    resolves to nothing, and a nil value is expected; the assertion fails
    all the same ("no data"). *)
Lemma assertData_nil_body_counterexample :
  ¬ @data_path_claim goRef VNil "Data.user.age" {| Data := VNil |}.
Proof.
  unfold data_path_claim.
  change (@m_GetOK goRef {["Data" := VNil]} "Data.user.age") with (VNil, false).
  intros [_ Hpass]. specialize (Hpass eq_refl). discriminate Hpass.
Qed.

(** C1 on the body [{"user":{"name":"Mat"}}]: [Data.user.name] expected to be
    "Mat" passes; [Data.user.age] expected to be null passes; [Data.user.age]
    expected to be 30 fails with the "(missing)" line. *)
Lemma assertData_verdict_witness :
  passes (@assertData goRef user_body None "Data.user.name" {| Data := VString "Mat" |})
  ∧ passes (@assertData goRef user_body None "Data.user.age" {| Data := VNil |})
  ∧ @assertData goRef user_body None "Data.user.age"
      {| Data := VFloat64 (float64_of_int 30) |}
    = ([ELog "Data.user.age expected float64: 30  actual: (missing)  "], inl false).
Proof.
  assert (Hbody : user_body ≠ VNil) by discriminate.
  split; [|split].
  - pose proof (assertData_verdict goRef user_body "Data.user.name"
                  {| Data := VString "Mat" |}) as (_ & _ & Hv).
    specialize (Hv Hbody). unfold data_path_verdict in Hv.
    change (@m_GetOK goRef {["Data" := user_body]} "Data.user.name")
      with (VString "Mat", true) in Hv.
    apply Hv. reflexivity.
  - pose proof (assertData_verdict goRef user_body "Data.user.age"
                  {| Data := VNil |}) as (_ & _ & Hv).
    specialize (Hv Hbody). unfold data_path_verdict in Hv.
    change (@m_GetOK goRef {["Data" := user_body]} "Data.user.age")
      with (VNil, false) in Hv.
    apply Hv. reflexivity.
  - pose proof (assertData_verdict goRef user_body "Data.user.age"
                  {| Data := VFloat64 (float64_of_int 30) |}) as (_ & _ & Hv).
    specialize (Hv Hbody). unfold data_path_verdict in Hv.
    change (@m_GetOK goRef {["Data" := user_body]} "Data.user.age")
      with (VNil, false) in Hv.
    destruct Hv as [_ Hv]. rewrite Hv; [reflexivity | discriminate].
Defined.

(** ** The response details *)

Lemma collect_header_lookup (k : string) (vs : list string) (acc : gmap string GoVal)
    (k' : string) :
  collect_header k vs acc !! k' =
  if decide (k = k') then
    match last vs with
    | Some v => Some (VString v)
    | None => acc !! k'
    end
  else acc !! k'.
Proof.
  unfold collect_header. revert acc.
  induction vs as [|v vs IH]; intros acc; cbn [foldl].
  - by case_decide.
  - rewrite IH. case_decide as Hk; [subst k'|by rewrite lookup_insert_ne].
    destruct vs as [|v' vs].
    + cbn [last]. by rewrite lookup_insert_eq.
    + rewrite last_cons_cons.
      destruct (last (v' :: vs)) eqn:E; [done | by apply last_None in E].
Qed.

Lemma collected_lookup (header : gmap string (list string)) (k : string) :
  map_fold collect_header ∅ header !! k = VString <$> (header !! k ≫= last).
Proof.
  revert k. apply (map_fold_weak_ind
    (λ r m, ∀ k, r !! k = VString <$> (m !! k ≫= last))).
  - intros k. by rewrite !lookup_empty.
  - intros i vs m r Hi IH k. rewrite collect_header_lookup.
    case_decide as Hk.
    + subst k. rewrite lookup_insert_eq. cbn. rewrite IH, Hi.
      by destruct (last vs).
    + by rewrite lookup_insert_ne, IH.
Qed.

Lemma responseDetails_Status (httpRes : HttpResponse) :
  responseDetails_of httpRes !! "Status"
  = Some (VFloat64 (float64_of_int (StatusCode httpRes))).
Proof. unfold responseDetails_of. by rewrite lookup_insert_eq. Qed.

(** C6, amended.  The flattened mapping maps every header name other than
    [Status] to the last of its values, as a string (and to nothing when the
    response does not have the header, or has it without a value); [Status]
    is always mapped to the status code as a float64, whatever the response
    has under that name. *)
Theorem responseDetails_of_lookup (httpRes : HttpResponse) :
  (∀ k, k ≠ "Status" →
        responseDetails_of httpRes !! k = VString <$> (Header httpRes !! k ≫= last))
  ∧ responseDetails_of httpRes !! "Status"
    = Some (VFloat64 (float64_of_int (StatusCode httpRes))).
Proof.
  unfold responseDetails_of. split.
  - intros k Hk. by rewrite lookup_insert_ne, collected_lookup.
  - apply responseDetails_Status.
Qed.

(** C6 as stated fails: a response that repeats a header named [Status] has
    the status code under that name, not the last value of the header. *)
Lemma responseDetails_Status_counterexample :
  ¬ last_value_claim (fixed_response {["Status" := ["never"; "200 OK"]]} "").
Proof.
  intros [Hlast _].
  specialize (Hlast "Status" ["never"; "200 OK"] "200 OK").
  rewrite responseDetails_Status in Hlast.
  cbn in Hlast. rewrite lookup_singleton_eq in Hlast.
  specialize (Hlast eq_refl ltac:(lia) eq_refl). discriminate Hlast.
Qed.

(** C6 on a response that repeats a cookie header: the last value only, and
    the status code. *)
Lemma responseDetails_of_lookup_witness :
  responseDetails_of (fixed_response {["Set-Cookie" := ["a=1"; "b=2"]]} "")
    !! "Set-Cookie" = Some (VString "b=2")
  ∧ responseDetails_of (fixed_response {["Set-Cookie" := ["a=1"; "b=2"]]} "")
      !! "Status" = Some (VFloat64 (float64_of_int 200)).
Proof.
  destruct (responseDetails_of_lookup
              (fixed_response {["Set-Cookie" := ["a=1"; "b=2"]]} "")) as [Hk Hs].
  split; [|exact Hs].
  rewrite Hk by discriminate. cbn. by rewrite lookup_singleton_eq.
Defined.

(** ** The loop over the expected details *)

Ltac run_unfold :=
  unfold mbind, mret, Run_bind, Run_ret, bind, ret, emit, stop, liftR, fail, log in *;
  cbn [fst snd] in *.

Section DetailFacts.
Context `{GoLib} `{ParsePkg}.

Lemma reports_failure_intro {A} (tr : list Event) (line : string) :
  @reports_failure A ((tr ++ [ELog line; EFailNow])%list, inr Failed).
Proof. split; [done|]. by exists tr, line. Qed.

Lemma check_detail_missing (r : Runner) (group : Group) (req : Request)
    (responseDetails : gmap string GoVal) (actualBody : string)
    (cache : option (GoVal * option error)) (line : Line) :
  HasPrefix (Key (LineDetail line)) "Data" = false →
  responseDetails !! Key (LineDetail line) = None →
  reports_failure (check_detail r group req responseDetails actualBody cache line).
Proof.
  intros Hkey Hrd. unfold check_detail. rewrite Hkey, Hrd. run_unfold.
  by apply (reports_failure_intro [_]).
Qed.

Lemma check_detail_present (r : Runner) (group : Group) (req : Request)
    (responseDetails : gmap string GoVal) (actualBody : string)
    (cache : option (GoVal * option error)) (line : Line) (actual : GoVal) :
  HasPrefix (Key (LineDetail line)) "Data" = false →
  responseDetails !! Key (LineDetail line) = Some actual →
  check_detail r group req responseDetails actualBody cache line
  = match iface_eq actual (Data (DetailValue (LineDetail line))) with
    | Ok true => ([], inl cache)
    | Ok false =>
        ([ELog (mismatch_line (Key (LineDetail line)) actual
                  (DetailValue (LineDetail line)));
          ELog (fail_line group req (Number line)
                  ("- " ++ Key (LineDetail line) ++ " doesn't match"));
          EFailNow],
         inr Failed)
    | Panic p => ([], inr (Panicked p))
    end.
Proof.
  intros Hkey Hrd. unfold check_detail, assertDetail. rewrite Hkey, Hrd.
  destruct (iface_eq actual _) as [[|]|p]; reflexivity.
Qed.

End DetailFacts.

(** C5. For an entry of the expected details whose key does not start with
    [Data] (a header name, or [Status]): when the key is absent from the
    flattened response mapping the entry fails; when it is present the entry
    passes if and only if the actual value [==] the expected [Data], and
    fails when they differ.  No pattern is matched: against an expected
    pattern between slashes an actual string passes only when it is that
    very text, slashes included. *)
Theorem check_detail_plain (lib : GoLib) (pkg : ParsePkg) (r : Runner) (group : Group)
    (req : Request) (responseDetails : gmap string GoVal) (actualBody : string)
    (cache : option (GoVal * option error)) (line : Line) :
  HasPrefix (Key (LineDetail line)) "Data" = false →
  plain_detail_verdict r group req responseDetails actualBody cache line
  ∧ (∀ pat s,
       Data (DetailValue (LineDetail line)) = VString ("/" ++ pat ++ "/") →
       responseDetails !! Key (LineDetail line) = Some (VString s) →
       goes_to_next (check_detail r group req responseDetails actualBody cache line)
       ↔ s = "/" ++ pat ++ "/").
Proof.
  intros Hkey. split.
  - unfold plain_detail_verdict.
    destruct (responseDetails !! Key (LineDetail line)) as [actual|] eqn:Hrd.
    + rewrite (check_detail_present _ _ _ _ _ _ _ actual Hkey Hrd).
      destruct (iface_eq actual _) as [[|]|p]; (split; [split|]); try done.
      * by exists cache.
      * by intros [a Ha].
      * intros _. by apply (reports_failure_intro [_]).
      * by intros [a Ha].
    + by apply check_detail_missing.
  - intros pat s Hexp Hrd.
    rewrite (check_detail_present _ _ _ _ _ _ _ _ Hkey Hrd), Hexp.
    cbn [iface_eq]. destruct (String.eqb_spec s ("/" ++ pat ++ "/")) as [Heq|Hne].
    + split; [done|]. by exists cache.
    + split; [|done]. by intros [a Ha].
Qed.

(** C5 on the response of the fixture: the status 200 passes; the content
    type, present, fails against a pattern that would match it; a header
    that the response does not have fails. *)
Lemma check_detail_plain_witness :
  HasPrefix "Content-Type" "Data" = false
  ∧ goes_to_next
      (@check_detail goRef (parseRef []) (fixed_runner hello_header "Hello Mat.")
         hello_group hello_request
         (responseDetails_of (fixed_response hello_header "Hello Mat."))
         "Hello Mat." None (detail_line 11 "Status" (VFloat64 (float64_of_int 200))))
  ∧ reports_failure
      (@check_detail goRef (parseRef []) (fixed_runner hello_header "Hello Mat.")
         hello_group hello_request
         (responseDetails_of (fixed_response hello_header "Hello Mat."))
         "Hello Mat." None (detail_line 12 "Content-Type" (VString "/^text/")))
  ∧ reports_failure
      (@check_detail goRef (parseRef []) (fixed_runner hello_header "Hello Mat.")
         hello_group hello_request
         (responseDetails_of (fixed_response hello_header "Hello Mat."))
         "Hello Mat." None (detail_line 13 "X-Trace" (VString "on"))).
Proof.
  split; [reflexivity|]. split; [|split].
  - destruct (check_detail_plain goRef (parseRef [])
                (fixed_runner hello_header "Hello Mat.") hello_group hello_request
                (responseDetails_of (fixed_response hello_header "Hello Mat."))
                "Hello Mat." None
                (detail_line 11 "Status" (VFloat64 (float64_of_int 200))) eq_refl)
      as [Hv _].
    unfold plain_detail_verdict in Hv. cbn [detail_line LineDetail Key] in Hv.
    rewrite responseDetails_Status in Hv. apply Hv. reflexivity.
  - destruct (check_detail_plain goRef (parseRef [])
                (fixed_runner hello_header "Hello Mat.") hello_group hello_request
                (responseDetails_of (fixed_response hello_header "Hello Mat."))
                "Hello Mat." None
                (detail_line 12 "Content-Type" (VString "/^text/")) eq_refl)
      as [Hv _].
    unfold plain_detail_verdict in Hv. cbn [detail_line LineDetail Key] in Hv.
    change (responseDetails_of (fixed_response hello_header "Hello Mat.")
              !! "Content-Type")
      with (Some (VString "text/html; charset=utf-8")) in Hv.
    apply Hv. reflexivity.
  - destruct (check_detail_plain goRef (parseRef [])
                (fixed_runner hello_header "Hello Mat.") hello_group hello_request
                (responseDetails_of (fixed_response hello_header "Hello Mat."))
                "Hello Mat." None
                (detail_line 13 "X-Trace" (VString "on")) eq_refl)
      as [Hv _].
    unfold plain_detail_verdict in Hv. cbn [detail_line LineDetail Key] in Hv.
    change (responseDetails_of (fixed_response hello_header "Hello Mat.")
              !! "X-Trace")
      with (@None GoVal) in Hv.
    exact Hv.
Defined.

(** ** The expected body *)

Lemma DeepEqual_Bytes (actual : string) (expected : ByteSlice) :
  DeepEqual (Bytes actual) expected = true ↔ expected = Bytes actual.
Proof.
  destruct expected as [|b]; cbn; [done|].
  rewrite String.eqb_eq. split; congruence.
Qed.

Section BodyFacts.
Context `{GoLib} `{ParsePkg}.

Lemma check_response_mismatch (r : Runner) (group : Group) (req : Request)
    (httpRes : HttpResponse) (actualBody : string) :
  BodyRead httpRes = inl actualBody →
  ExpectedBody req ≠ [] →
  DeepEqual (Bytes actualBody) (Lines_Join (ExpectedBody req)) = false →
  check_response r group req httpRes
  = (body_mismatch_trace group req actualBody, inr Failed).
Proof.
  intros Hbody Hdecl Hne. unfold check_response, assertBody.
  rewrite Hbody, Hne.
  rewrite bool_decide_true by (destruct (ExpectedBody req); [done | cbn; lia]).
  reflexivity.
Qed.

Lemma check_response_completed (r : Runner) (group : Group) (req : Request)
    (httpRes : HttpResponse) (actualBody : string) :
  BodyRead httpRes = inl actualBody →
  ExpectedBody req ≠ [] →
  (check_response r group req httpRes).2 = inl tt →
  Lines_Join (ExpectedBody req) = Bytes actualBody.
Proof.
  intros Hbody Hdecl Hok.
  destruct (DeepEqual (Bytes actualBody) (Lines_Join (ExpectedBody req))) eqn:Heq.
  - by apply DeepEqual_Bytes.
  - by rewrite (check_response_mismatch _ _ _ _ _ Hbody Hdecl Heq) in Hok.
Qed.

End BodyFacts.

(** ** Fail-fast evaluation of the expected details *)

Section LoopFacts.
Context `{GoLib} `{ParsePkg}.

Lemma foldM_app_inl {A S} (body : S → A → Run S) (acc acc1 : S) (l1 l2 : list A)
    (tr1 : list Event) :
  foldM body acc l1 = (tr1, inl acc1) →
  foldM body acc (l1 ++ l2) = ((tr1 ++ (foldM body acc1 l2).1)%list, (foldM body acc1 l2).2).
Proof.
  revert acc tr1. induction l1 as [|x l1 IH]; intros acc tr1 Hl1.
  - cbn in Hl1. injection Hl1 as <- <-. cbn [app]. by destruct (foldM body acc l2).
  - cbn [app foldM] in *. run_unfold.
    destruct (body acc x) as [trx [ax|v]]; [|done].
    destruct (foldM body ax l1) as [tr' r'] eqn:Hrest.
    injection Hl1 as <- ->.
    rewrite (IH ax tr' Hrest). by rewrite app_assoc.
Qed.

(** What [assertData] can do: pass in silence, fail with one log line, or
    panic in silence. *)
Lemma assertData_cases (data : GoVal) (errData : option error) (key : string)
    (expected : Value) :
  assertData data errData key expected = ([], inl true)
  ∨ (∃ line, assertData data errData key expected = ([ELog line], inl false))
  ∨ (∃ p, assertData data errData key expected = ([], inr (Panicked p))).
Proof.
  unfold assertData. destruct errData as [err|]; [right; left; by eexists|].
  destruct (is_nil data); [right; left; by eexists|].
  destruct (m_GetOK _ key) as [actual [|]]; cbn [negb andb].
  - destruct (Value_Equal expected actual) as [[|]|p].
    + by left.
    + right; left; by eexists.
    + right; right; by eexists.
  - destruct (is_nil (Data expected)); cbn [negb].
    + by left.
    + right; left; by eexists.
Qed.

Ltac no_FailNow :=
  rewrite ?not_elem_of_cons; repeat split; try discriminate; apply not_elem_of_nil.

(** A turn that goes on has reported nothing; a turn that fails ends with
    the failure of its line, reported once. *)
Lemma check_detail_cases (r : Runner) (group : Group) (req : Request)
    (responseDetails : gmap string GoVal) (actualBody : string)
    (cache : option (GoVal * option error)) (line : Line) :
  match (check_detail r group req responseDetails actualBody cache line).2 with
  | inl _ =>
      Forall (λ e, is_ParseBody e = true)
        (check_detail r group req responseDetails actualBody cache line).1
  | inr Failed =>
      first_failure_trace group req
        (check_detail r group req responseDetails actualBody cache line).1 line
  | inr _ => True
  end.
Proof.
  unfold check_detail.
  destruct (HasPrefix (Key (LineDetail line)) "Data").
  - unfold parse_once.
    destruct cache as [parsed|]; run_unfold.
    + destruct (assertData_cases parsed.1 parsed.2 (Key (LineDetail line))
                  (DetailValue (LineDetail line))) as [-> | [[l ->] | [p ->]]];
        cbn; [constructor| |done].
      exists [ELog l], ("- " ++ Key (LineDetail line) ++ " doesn't match").
      split; [done|]. no_FailNow.
    + destruct (assertData_cases (ParseBody r actualBody).1 (ParseBody r actualBody).2
                  (Key (LineDetail line)) (DetailValue (LineDetail line)))
        as [-> | [[l ->] | [p ->]]];
        cbn; [by repeat constructor| |done].
      exists [EParseBody actualBody; ELog l],
        ("- " ++ Key (LineDetail line) ++ " doesn't match").
      split; [done|]. no_FailNow.
  - destruct (responseDetails !! Key (LineDetail line)) as [actual|]; run_unfold.
    + unfold assertDetail. run_unfold.
      destruct (iface_eq actual _) as [[|]|p]; cbn; [constructor| |done].
      eexists [ELog _], ("- " ++ Key (LineDetail line) ++ " doesn't match").
      split; [done|]. no_FailNow.
    + cbn. eexists [ELog _], ("- " ++ Key (LineDetail line) ++ " doesn't match").
      split; [done|]. no_FailNow.
Qed.

Lemma check_details_stop (r : Runner) (group : Group) (req : Request)
    (responseDetails : gmap string GoVal) (actualBody : string)
    (cache cache1 : option (GoVal * option error)) (l1 l2 : Lines) (e : Line)
    (tr1 : list Event) :
  foldM (check_detail r group req responseDetails actualBody) cache l1
  = (tr1, inl cache1) →
  (check_detail r group req responseDetails actualBody cache1 e).2 = inr Failed →
  foldM (check_detail r group req responseDetails actualBody) cache (l1 ++ e :: l2)
  = ((tr1 ++ (check_detail r group req responseDetails actualBody cache1 e).1)%list,
     inr Failed).
Proof.
  intros Hl1 He. rewrite (foldM_app_inl _ _ _ _ _ _ Hl1).
  cbn [foldM]. run_unfold.
  destruct (check_detail r group req responseDetails actualBody cache1 e)
    as [tre [c|v]]; cbn in *; [done|]. by injection He as ->.
Qed.

Lemma check_details_quiet (r : Runner) (group : Group) (req : Request)
    (responseDetails : gmap string GoVal) (actualBody : string)
    (cache cache1 : option (GoVal * option error)) (l1 : Lines) (tr1 : list Event) :
  foldM (check_detail r group req responseDetails actualBody) cache l1
  = (tr1, inl cache1) →
  Forall (λ e, is_ParseBody e = true) tr1.
Proof.
  revert cache tr1. induction l1 as [|x l1 IH]; intros cache tr1 Hl1.
  - cbn in Hl1. injection Hl1 as <- _. constructor.
  - cbn [foldM] in Hl1. run_unfold.
    pose proof (check_detail_cases r group req responseDetails actualBody cache x)
      as Hx.
    destruct (check_detail r group req responseDetails actualBody cache x)
      as [trx [cx|v]]; [|done]. cbn in Hx.
    destruct (foldM _ cx l1) as [tr' r'] eqn:Hrest.
    injection Hl1 as <- ->. apply Forall_app. split; [done|]. by eapply IH.
Qed.

End LoopFacts.

(** The loop over the expected details: when the entries before [e] all
    pass and [e] fails, the loop ends there with a failure, whatever entries
    follow [e]. *)
Lemma check_details_first_failure (lib : GoLib) (pkg : ParsePkg) (r : Runner)
    (group : Group) (req : Request) (responseDetails : gmap string GoVal)
    (actualBody : string) (cache cache1 : option (GoVal * option error))
    (l1 l2 : Lines) (e : Line) (tr1 : list Event) :
  foldM (check_detail r group req responseDetails actualBody) cache l1
  = (tr1, inl cache1) →
  (check_detail r group req responseDetails actualBody cache1 e).2 = inr Failed →
  foldM (check_detail r group req responseDetails actualBody) cache (l1 ++ e :: l2)
  = ((tr1 ++ (check_detail r group req responseDetails actualBody cache1 e).1)%list,
     inr Failed)
  ∧ foldM (check_detail r group req responseDetails actualBody) cache (l1 ++ e :: l2)
    = foldM (check_detail r group req responseDetails actualBody) cache (l1 ++ [e])
  ∧ Forall (λ ev, is_ParseBody ev = true) tr1
  ∧ first_failure_trace group req
      (check_detail r group req responseDetails actualBody cache1 e).1 e.
Proof.
  intros Hl1 He. split; [|split; [|split]].
  - by apply check_details_stop.
  - by rewrite !(check_details_stop _ _ _ _ _ _ _ _ _ _ _ Hl1 He).
  - by eapply check_details_quiet.
  - pose proof (check_detail_cases r group req responseDetails actualBody cache1 e)
      as Hcases.
    by rewrite He in Hcases.
Qed.

(** ** Parse errors *)

Lemma ParseFile_error `{ParsePkg} (filenames : list string) (f : string) (err : error) :
  f ∈ filenames → parse_document f = inr err → ∃ err', ParseFile filenames = inr err'.
Proof.
  intros Hin Herr. induction filenames as [|g rest IH]; [by apply elem_of_nil in Hin|].
  cbn [ParseFile]. apply elem_of_cons in Hin as [<-|Hin].
  - rewrite Herr. by eexists.
  - destruct (parse_document g) as [grp|e]; [|by eexists].
    destruct (IH Hin) as [err' ->]. by eexists.
Qed.

(** C9. When the parsing of any one of the documents fails, [ParseFile]
    returns an error, and [RunFile] logs it and returns: that log line is all
    that happens; no request of any document is built or sent. *)
Theorem RunFile_parse_error (lib : GoLib) (pkg : ParsePkg) (r : Runner)
    (filenames : list string) (f : string) (err : error) :
  f ∈ filenames →
  parse_document f = inr err →
  ∃ err',
    ParseFile filenames = inr err'
    ∧ RunFile r filenames = ([ELog (Join [err'; " "] " ")], Completed)
    ∧ no_request_made (RunFile r filenames).1.
Proof.
  intros Hin Herr. destruct (ParseFile_error filenames f err Hin Herr) as [err' Hpf].
  exists err'. unfold RunFile. rewrite Hpf. split; [done|]. split; [done|].
  intros e He. cbn in He. apply list_elem_of_singleton in He as ->. done.
Qed.

(** C9 on two documents of which the second does not parse: the first one
    parses, and yet none of its requests is run. *)
Lemma RunFile_parse_error_witness :
  "broken.silk.md" ∈ ["hello.silk.md"; "broken.silk.md"]
  ∧ @parse_document (parseRef example_docs) "hello.silk.md" = inl hello_group
  ∧ @RunFile goRef (parseRef example_docs) (fixed_runner hello_header "Hello Mat.")
      ["hello.silk.md"; "broken.silk.md"]
    = ([ELog "broken.silk.md:3: invalid value: {oops (did you forget quotes?)  "],
       Completed).
Proof.
  split; [by apply list_elem_of_further, list_elem_of_here|]. split; [reflexivity|].
  destruct (RunFile_parse_error goRef (parseRef example_docs)
              (fixed_runner hello_header "Hello Mat.")
              ["hello.silk.md"; "broken.silk.md"] "broken.silk.md"
              "broken.silk.md:3: invalid value: {oops (did you forget quotes?)"
              ltac:(by apply list_elem_of_further, list_elem_of_here) eq_refl)
    as (err' & Hpf & Hrun & _).
  rewrite Hrun. injection Hpf as <-. reflexivity.
Defined.

(** ** The outbound request *)

Lemma sent_request_app (pre rest : list Event) (q : HttpRequest) :
  Forall (λ e, is_RoundTrip e = false) pre →
  sent_request (pre ++ ERoundTrip q :: rest) = Some q.
Proof.
  induction 1 as [|e pre He _ IH]; [done|].
  cbn [app sent_request]. by destruct e.
Qed.

Lemma strings_append_new (m : StringsMap) (key value : string) :
  value ∈ default [] (strings_append m key value !! key).
Proof.
  unfold strings_append. rewrite lookup_insert_eq. cbn.
  apply elem_of_app. right. apply list_elem_of_here.
Qed.

Lemma strings_append_keeps (m : StringsMap) (key value k x : string) :
  x ∈ default [] (m !! k) → x ∈ default [] (strings_append m key value !! k).
Proof.
  intros Hx. unfold strings_append. destruct (decide (key = k)) as [->|Hne].
  - rewrite lookup_insert_eq. cbn. apply elem_of_app. by left.
  - by rewrite lookup_insert_ne.
Qed.

(** Every element of a list folded with [strings_append] is in the map. *)
Lemma fold_append_elem {A} (key_of value_of : A → string) (l : list A)
    (m : StringsMap) (a : A) :
  a ∈ l →
  value_of a
  ∈ default [] (foldl (λ m x, strings_append m (key_of x) (value_of x)) m l
                  !! key_of a).
Proof.
  revert m. induction l as [|x l IH]; intros m Hin; [by apply elem_of_nil in Hin|].
  cbn [foldl]. apply elem_of_cons in Hin as [->|Hin]; [|by apply IH].
  generalize (strings_append_new m (key_of x) (value_of x)).
  generalize (strings_append m (key_of x) (value_of x)). clear IH.
  induction l as [|y l IH]; intros m' Hm'; [done|].
  cbn [foldl]. apply IH. by apply strings_append_keeps.
Qed.

Section OutboundFacts.
Context `{GoLib} `{ParsePkg}.

Lemma foldM_add_header (h : StringsMap) (l : Lines) :
  foldM add_header h l
  = (map (λ line, EVerbose [VString indent; VString (Detail_String (LineDetail line))]) l,
     inl (foldl (λ h line,
                   Header_Add h (Key (LineDetail line))
                     (Sprint_v (Data (DetailValue (LineDetail line))))) h l)).
Proof.
  revert h. induction l as [|x l IH]; intros h; [done|].
  cbn [foldM map foldl]. unfold mbind, Run_bind, bind.
  change (add_header h x)
    with ([EVerbose [VString indent; VString (Detail_String (LineDetail x))]],
          @inl StringsMap Verdict
            (Header_Add h (Key (LineDetail x))
               (Sprint_v (Data (DetailValue (LineDetail x)))))).
  cbv beta iota. by rewrite IH.
Qed.

Lemma foldM_add_param (q : StringsMap) (l : Lines) :
  foldM add_param q l
  = (map (λ line, EVerbose [VString indent; VString (Detail_String (LineDetail line))]) l,
     inl (foldl (λ q line,
                   Values_Add q (Key (LineDetail line))
                     (Sprint_v (Data (DetailValue (LineDetail line))))) q l)).
Proof.
  revert q. induction l as [|x l IH]; intros q; [done|].
  cbn [foldM map foldl]. unfold mbind, Run_bind, bind.
  change (add_param q x)
    with ([EVerbose [VString indent; VString (Detail_String (LineDetail x))]],
          @inl StringsMap Verdict
            (Values_Add q (Key (LineDetail x))
               (Sprint_v (Data (DetailValue (LineDetail x)))))).
  cbv beta iota. by rewrite IH.
Qed.

Lemma Forall_verbose_not_RoundTrip (l : Lines) :
  Forall (λ e, is_RoundTrip e = false)
    (map (λ line, EVerbose [VString indent; VString (Detail_String (LineDetail line))]) l).
Proof. apply Forall_fmap, Forall_true. done. Qed.

(** [runRequest] hands [outbound_request] to the transport. *)
Lemma runRequest_sent (r : Runner) (group : Group) (req : Request)
    (httpReq0 : HttpRequest) :
  NewRequest r (Method req) (rootURL r ++ Path req) (request_body req) = inl httpReq0 →
  sent_request (runRequest r group req).1 = Some (outbound_request req httpReq0).
Proof.
  intros Hnew. unfold runRequest, runRequest_body.
  fold (request_body req). rewrite Hnew.
  run_unfold. rewrite foldM_add_header, foldM_add_param.
  fold (outbound_header req httpReq0). fold (outbound_query req httpReq0).
  fold (outbound_request req httpReq0).
  destruct (RoundTripper r (outbound_request req httpReq0)) as [httpRes|err].
  - unfold defer_close.
    destruct (check_response r group req httpRes) as [tr [[]|v]]; cbn;
      rewrite app_assoc; apply sent_request_app;
      apply Forall_app; split; apply Forall_verbose_not_RoundTrip.
  - cbn. rewrite app_assoc. apply sent_request_app.
    apply Forall_app; split; apply Forall_verbose_not_RoundTrip.
Qed.

End OutboundFacts.

(** C3, amended.  When [NewRequest] returns a request, the request handed to
    the transport has, for every entry of [Details], the [%v] rendering of
    its [Data] among the values of the header of its (canonical) key, and
    its query is the encoding of values that have, for every entry of
    [Params], the [%v] rendering of its [Data] under its key.  [%v] is not
    the JSON rendering of [String()]: a string is sent as it is, without
    quotes. *)
Theorem runRequest_sends_details (lib : GoLib) (pkg : ParsePkg) (r : Runner)
    (group : Group) (req : Request) (httpReq0 : HttpRequest) :
  NewRequest r (Method req) (rootURL r ++ Path req) (request_body req) = inl httpReq0 →
  ∃ httpReq q,
    sent_request (runRequest r group req).1 = Some httpReq
    ∧ RawQuery (ReqURL httpReq) = url_Encode q
    ∧ (∀ line, line ∈ Details req →
         Sprint_v (Data (DetailValue (LineDetail line)))
         ∈ default [] (ReqHeader httpReq
                         !! CanonicalMIMEHeaderKey (Key (LineDetail line))))
    ∧ (∀ line, line ∈ Params req →
         Sprint_v (Data (DetailValue (LineDetail line)))
         ∈ default [] (q !! Key (LineDetail line))).
Proof.
  intros Hnew. exists (outbound_request req httpReq0), (outbound_query req httpReq0).
  split; [by apply runRequest_sent|]. split; [done|]. split.
  - intros line Hin. cbn [outbound_request ReqHeader]. unfold outbound_header, Header_Add.
    by apply (fold_append_elem
                (λ line, CanonicalMIMEHeaderKey (Key (LineDetail line)))
                (λ line, Sprint_v (Data (DetailValue (LineDetail line))))).
  - intros line Hin. unfold outbound_query, Values_Add.
    by apply (fold_append_elem
                (λ line, Key (LineDetail line))
                (λ line, Sprint_v (Data (DetailValue (LineDetail line))))).
Qed.

(** C3 as stated fails: the header [accept: "text/plain"] is sent as
    [text/plain], which is not what [String()] returns (the same with its
    quotes). *)
Lemma details_sent_as_String_counterexample :
  ¬ @details_sent_as_String goRef (parseRef [])
      (fixed_runner hello_header "Hello Mat.") hello_group accept_request.
Proof.
  intros Hclaim.
  specialize (Hclaim
    (@outbound_request goRef (parseRef []) accept_request hello_base_request)
    (detail_line 5 "accept" (VString "text/plain"))
    (dquote ++ "text/plain" ++ dquote)
    (@runRequest_sent goRef (parseRef []) (fixed_runner hello_header "Hello Mat.")
       hello_group accept_request hello_base_request eq_refl)
    ltac:(apply list_elem_of_here) eq_refl).
  vm_compute in Hclaim.
  apply list_elem_of_singleton in Hclaim. discriminate Hclaim.
Qed.

(** C3 on a request with the header [accept: "text/plain"] and the parameter
    [name=Mat]: both are sent without quotes. *)
Lemma runRequest_sends_details_witness :
  NewRequest (fixed_runner hello_header "Hello Mat.") "GET"
    "http://localhost:8080/hello" None
  = inl hello_base_request
  ∧ ∃ httpReq q,
      sent_request
        (@runRequest goRef (parseRef []) (fixed_runner hello_header "Hello Mat.")
           hello_group accept_request).1 = Some httpReq
      ∧ RawQuery (ReqURL httpReq) = @url_Encode goRef q
      ∧ "text/plain" ∈ default [] (ReqHeader httpReq !! "Accept")
      ∧ "Mat" ∈ default [] (q !! "name").
Proof.
  split; [reflexivity|].
  destruct (runRequest_sends_details goRef (parseRef [])
              (fixed_runner hello_header "Hello Mat.") hello_group accept_request
              hello_base_request eq_refl) as (httpReq & q & Hsent & Hq & Hd & Hp).
  exists httpReq, q. split; [exact Hsent|]. split; [exact Hq|]. split.
  - apply (Hd (detail_line 5 "accept" (VString "text/plain"))).
    apply list_elem_of_here.
  - apply (Hp (detail_line 7 "name" (VString "Mat"))). apply list_elem_of_here.
Defined.

(** ** [runRequest] after the response *)

Section ResponseFacts.
Context `{GoLib} `{ParsePkg}.

(** Once the transport has returned a response, [runRequest] is the checks
    of the response, then the deferred close. *)
Lemma runRequest_response (r : Runner) (group : Group) (req : Request)
    (httpReq0 : HttpRequest) (httpRes : HttpResponse) :
  NewRequest r (Method req) (rootURL r ++ Path req) (request_body req) = inl httpReq0 →
  RoundTripper r (outbound_request req httpReq0) = inl httpRes →
  runRequest r group req
  = finish ((request_trace r req httpReq0
             ++ (check_response r group req httpRes).1 ++ [EBodyClose])%list,
            (check_response r group req httpRes).2).
Proof.
  intros Hnew Htrip. unfold runRequest, runRequest_body.
  fold (request_body req). rewrite Hnew.
  run_unfold. rewrite foldM_add_header, foldM_add_param.
  fold (outbound_header req httpReq0). fold (outbound_query req httpReq0).
  fold (outbound_request req httpReq0). rewrite Htrip.
  unfold defer_close, request_trace.
  destruct (check_response r group req httpRes) as [tr [[]|v]]; cbn;
    by rewrite <- !app_assoc.
Qed.

(** With the body as expected, or none expected, the checks of the response
    are the loop over the expected details. *)
Lemma check_response_details (r : Runner) (group : Group) (req : Request)
    (httpRes : HttpResponse) (actualBody : string) :
  BodyRead httpRes = inl actualBody →
  ExpectedBody req = [] ∨ Lines_Join (ExpectedBody req) = Bytes actualBody →
  check_response r group req httpRes
  = ((foldM (check_detail r group req (responseDetails_of httpRes) actualBody)
        None (ExpectedDetails req)).1,
     match (foldM (check_detail r group req (responseDetails_of httpRes) actualBody)
              None (ExpectedDetails req)).2 with
     | inl _ => inl tt
     | inr v => inr v
     end).
Proof.
  intros Hbody Hexp. unfold check_response. rewrite Hbody.
  assert ((if bool_decide (0 < List.length (ExpectedBody req))
           then ok ← assertBody (Bytes actualBody) (Lines_Join (ExpectedBody req));
                if negb ok
                then fail group req (Lines_Number (ExpectedBody req))
                       ["- body doesn't match"];; stop Failed
                else mret tt
           else mret tt) = ([], inl tt)) as ->.
  { destruct Hexp as [->| ->]; [done|].
    case_bool_decide; [|done]. unfold assertBody.
    by rewrite (proj2 (DeepEqual_Bytes actualBody (Bytes actualBody)) eq_refl). }
  run_unfold.
  destruct (foldM _ None (ExpectedDetails req)) as [tr [c|v]]; cbn;
    by rewrite ?app_nil_r.
Qed.

End ResponseFacts.

(** C7. For a request that declares an expected body, once the transport has
    returned a response whose body could be read: [runRequest] completes
    without a failure only if the response body is the expected literal, byte
    for byte; on a mismatch the request fails, the log shows both bodies, and
    nothing else happens before the body is closed, whatever the expected
    details are: none of them is evaluated. *)
Theorem runRequest_body_mismatch (lib : GoLib) (pkg : ParsePkg) (r : Runner)
    (group : Group) (req : Request) (httpReq0 : HttpRequest)
    (httpRes : HttpResponse) (actualBody : string) :
  NewRequest r (Method req) (rootURL r ++ Path req) (request_body req) = inl httpReq0 →
  RoundTripper r (outbound_request req httpReq0) = inl httpRes →
  BodyRead httpRes = inl actualBody →
  ExpectedBody req ≠ [] →
  ((runRequest r group req).2 = Completed →
   Lines_Join (ExpectedBody req) = Bytes actualBody)
  ∧ (Lines_Join (ExpectedBody req) ≠ Bytes actualBody →
     runRequest r group req
     = ((request_trace r req httpReq0
         ++ body_mismatch_trace group req actualBody ++ [EBodyClose])%list, Failed)
     ∧ ∀ eds,
         runRequest r group (set_ExpectedDetails req eds) = runRequest r group req).
Proof.
  intros Hnew Htrip Hbody Hdecl.
  assert (∀ eds,
            DeepEqual (Bytes actualBody) (Lines_Join (ExpectedBody req)) = false →
            runRequest r group (set_ExpectedDetails req eds)
            = ((request_trace r req httpReq0
                ++ body_mismatch_trace group req actualBody ++ [EBodyClose])%list,
               Failed)) as Hfail.
  { intros eds Hne.
    rewrite (runRequest_response r group (set_ExpectedDetails req eds)
               httpReq0 httpRes Hnew Htrip).
    by rewrite (check_response_mismatch r group (set_ExpectedDetails req eds)
                  httpRes actualBody Hbody Hdecl Hne). }
  assert (runRequest r group (set_ExpectedDetails req (ExpectedDetails req))
          = runRequest r group req) as Hsame by (by destruct req).
  split.
  - intros Hdone.
    destruct (DeepEqual (Bytes actualBody) (Lines_Join (ExpectedBody req))) eqn:Heq;
      [by apply DeepEqual_Bytes|].
    rewrite <- Hsame, (Hfail _ eq_refl) in Hdone. discriminate Hdone.
  - intros Hne.
    assert (DeepEqual (Bytes actualBody) (Lines_Join (ExpectedBody req)) = false)
      as Heq.
    { destruct (DeepEqual _ _) eqn:Heq; [|done]. by apply DeepEqual_Bytes in Heq. }
    split; [by rewrite <- Hsame, (Hfail _ Heq)|].
    intros eds. by rewrite (Hfail eds Heq), <- Hsame, (Hfail _ Heq).
Qed.

(** C7 on the fixture: the server answers [Hello World.] where [Hello Mat.]
    is expected; both bodies are logged, the request fails, and the expected
    status, which would fail too, is not looked at. *)
Lemma runRequest_body_mismatch_witness :
  NewRequest (fixed_runner hello_header "Hello World.") "GET"
    "http://localhost:8080/hello" None = inl hello_base_request
  ∧ ExpectedBody hello_request ≠ []
  ∧ @Lines_Join (parseRef []) (ExpectedBody hello_request) ≠ Bytes "Hello World."
  ∧ @runRequest goRef (parseRef []) (fixed_runner hello_header "Hello World.")
      hello_group
      (set_ExpectedDetails hello_request
         [detail_line 11 "Status" (VFloat64 (float64_of_int 404))])
    = ((@request_trace goRef (parseRef []) (fixed_runner hello_header "Hello World.")
          hello_request hello_base_request
        ++ [ELog "body expected:  "; ELog "```  "; ELog "Hello Mat.  "; ELog "```  ";
            ELog "actual:  "; ELog "```  "; ELog "Hello World.  "; ELog "```  ";
            ELog (fail_line hello_group hello_request 15 "- body doesn't match");
            EFailNow; EBodyClose])%list,
       Failed).
Proof.
  split; [reflexivity|]. split; [discriminate|]. split; [discriminate|].
  destruct (runRequest_body_mismatch goRef (parseRef [])
              (fixed_runner hello_header "Hello World.") hello_group hello_request
              hello_base_request (fixed_response hello_header "Hello World.")
              "Hello World." eq_refl eq_refl eq_refl ltac:(discriminate))
    as [_ Hfail].
  destruct Hfail as [Htrace Hany]; [discriminate|].
  rewrite Hany. exact Htrace.
Defined.

(** C8. Once the transport has returned a response whose body could be read
    and is as expected: when the expected details are [l1], then [e], then
    [l2], the entries of [l1] all pass and [e] fails, [runRequest] fails with
    the trace of [l1] (which reports nothing) followed by that of [e], which
    ends with the failure of [e], signalled once.  The entries of [l2], failing
    or not, are never evaluated: the run is the same without them. *)
Theorem runRequest_fail_fast (lib : GoLib) (pkg : ParsePkg) (r : Runner)
    (group : Group) (req : Request) (httpReq0 : HttpRequest)
    (httpRes : HttpResponse) (actualBody : string) (l1 l2 : Lines) (e : Line)
    (tr1 : list Event) (cache1 : option (GoVal * option error)) :
  NewRequest r (Method req) (rootURL r ++ Path req) (request_body req) = inl httpReq0 →
  RoundTripper r (outbound_request req httpReq0) = inl httpRes →
  BodyRead httpRes = inl actualBody →
  ExpectedBody req = [] ∨ Lines_Join (ExpectedBody req) = Bytes actualBody →
  ExpectedDetails req = (l1 ++ e :: l2)%list →
  foldM (check_detail r group req (responseDetails_of httpRes) actualBody) None l1
  = (tr1, inl cache1) →
  (check_detail r group req (responseDetails_of httpRes) actualBody cache1 e).2
  = inr Failed →
  runRequest r group req
  = ((request_trace r req httpReq0 ++ tr1
      ++ (check_detail r group req (responseDetails_of httpRes) actualBody cache1 e).1
      ++ [EBodyClose])%list, Failed)
  ∧ Forall (λ ev, is_ParseBody ev = true) tr1
  ∧ first_failure_trace group req
      (check_detail r group req (responseDetails_of httpRes) actualBody cache1 e).1 e
  ∧ runRequest r group (set_ExpectedDetails req (l1 ++ [e])%list) = runRequest r group req.
Proof.
  intros Hnew Htrip Hbody Hexp Heds Hl1 He.
  assert (∀ l2',
            runRequest r group (set_ExpectedDetails req (l1 ++ e :: l2')%list)
            = ((request_trace r req httpReq0 ++ tr1
                ++ (check_detail r group req (responseDetails_of httpRes)
                      actualBody cache1 e).1
                ++ [EBodyClose])%list, Failed)) as Hrun.
  { intros l2'.
    rewrite (runRequest_response r group (set_ExpectedDetails req (l1 ++ e :: l2')%list)
               httpReq0 httpRes Hnew Htrip).
    rewrite (check_response_details r group (set_ExpectedDetails req (l1 ++ e :: l2')%list)
               httpRes actualBody Hbody Hexp).
    cbn [set_ExpectedDetails ExpectedDetails].
    change (check_detail r group (set_ExpectedDetails req (l1 ++ e :: l2')%list))
      with (check_detail r group req).
    rewrite (check_details_stop r group req _ _ None cache1 l1 l2' e tr1 Hl1 He).
    cbn. by rewrite <- !app_assoc. }
  assert (runRequest r group (set_ExpectedDetails req (l1 ++ e :: l2)%list)
          = runRequest r group req) as Hsame by (rewrite <- Heds; by destruct req).
  split; [by rewrite <- Hsame|]. split; [by eapply check_details_quiet|]. split.
  - pose proof (check_detail_cases r group req (responseDetails_of httpRes)
                  actualBody cache1 e) as Hcases.
    by rewrite He in Hcases.
  - by rewrite <- Hsame, !Hrun.
Qed.

(** C8 on the fixture's response and two expectations that both fail: only
    the status, the first of them, is reported. *)
Lemma runRequest_fail_fast_witness :
  NewRequest (fixed_runner hello_header "Hello Mat.") "GET"
    "http://localhost:8080/hello" None = inl hello_base_request
  ∧ @Lines_Join (parseRef []) (ExpectedBody two_failures_request) = Bytes "Hello Mat."
  ∧ (@check_detail goRef (parseRef []) (fixed_runner hello_header "Hello Mat.")
       hello_group two_failures_request
       (responseDetails_of (fixed_response hello_header "Hello Mat."))
       "Hello Mat." None
       (detail_line 11 "Status" (VFloat64 (float64_of_int 404)))).2 = inr Failed
  ∧ (@check_detail goRef (parseRef []) (fixed_runner hello_header "Hello Mat.")
       hello_group two_failures_request
       (responseDetails_of (fixed_response hello_header "Hello Mat."))
       "Hello Mat." None
       (detail_line 12 "Content-Type" (VString "application/json"))).2 = inr Failed
  ∧ @runRequest goRef (parseRef []) (fixed_runner hello_header "Hello Mat.")
      hello_group two_failures_request
    = ((@request_trace goRef (parseRef []) (fixed_runner hello_header "Hello Mat.")
          two_failures_request hello_base_request
        ++ [ELog "Status expected float64: 404  actual float64: 200  ";
            ELog (fail_line hello_group hello_request 11 "- Status doesn't match");
            EFailNow; EBodyClose])%list,
       Failed).
Proof.
  split; [reflexivity|]. split; [reflexivity|]. split; [reflexivity|].
  split; [reflexivity|].
  destruct (runRequest_fail_fast goRef (parseRef [])
              (fixed_runner hello_header "Hello Mat.") hello_group
              two_failures_request hello_base_request
              (fixed_response hello_header "Hello Mat.") "Hello Mat." []
              [detail_line 12 "Content-Type" (VString "application/json")]
              (detail_line 11 "Status" (VFloat64 (float64_of_int 404))) [] None
              eq_refl eq_refl eq_refl (or_intror eq_refl) eq_refl eq_refl eq_refl)
    as [Hrun _].
  rewrite Hrun. reflexivity.
Defined.

(** ** Further properties of the value model and of the loop *)

(** X2. [Equal] panics when [Data] and the other value are two maps, or two
    slices: [==] on interfaces does not compare values of these types. *)
Theorem Value_Equal_uncomparable (lib : GoLib) :
  (∀ m m' : gmap string GoVal,
     Value_Equal {| Data := VMap m |} (VMap m')
     = Panic (RuntimeError "comparing uncomparable type map[string]interface {}"))
  ∧ (∀ l l' : list GoVal,
       Value_Equal {| Data := VSlice l |} (VSlice l')
       = Panic (RuntimeError "comparing uncomparable type []interface {}")).
Proof. split; intros; reflexivity. Qed.

Lemma count_ParseBody_app (tr tr' : list Event) :
  count_ParseBody (tr ++ tr') = (count_ParseBody tr + count_ParseBody tr')%nat.
Proof. induction tr as [|e tr IH]; cbn [app count_ParseBody]; lia. Qed.

Section OnceFacts.
Context `{GoLib} `{ParsePkg}.

(** With a parsed body at hand a turn does not call the parser, and leaves
    the parsed body as it is. *)
Lemma check_detail_cached (r : Runner) (group : Group) (req : Request)
    (responseDetails : gmap string GoVal) (actualBody : string)
    (parsed : GoVal * option error) (line : Line) :
  count_ParseBody
    (check_detail r group req responseDetails actualBody (Some parsed) line).1 = 0%nat
  ∧ ∀ c, (check_detail r group req responseDetails actualBody (Some parsed) line).2
         = inl c → c = Some parsed.
Proof.
  unfold check_detail.
  destruct (HasPrefix (Key (LineDetail line)) "Data").
  - unfold parse_once. run_unfold.
    destruct (assertData_cases parsed.1 parsed.2 (Key (LineDetail line))
                (DetailValue (LineDetail line))) as [-> | [[l ->] | [p ->]]];
      cbn; (split; [done|]); intros c; congruence.
  - destruct (responseDetails !! Key (LineDetail line)) as [actual|]; run_unfold.
    + unfold assertDetail. run_unfold.
      destruct (iface_eq actual _) as [[|]|p]; cbn; (split; [done|]);
        intros c; congruence.
    + cbn. split; [done|]. intros c; congruence.
Qed.

(** Without one, a turn calls the parser at most once, and if it did and
    goes on, it goes on with the parsed body. *)
Lemma check_detail_uncached (r : Runner) (group : Group) (req : Request)
    (responseDetails : gmap string GoVal) (actualBody : string) (line : Line) :
  (count_ParseBody
     (check_detail r group req responseDetails actualBody None line).1 ≤ 1)%nat
  ∧ ∀ c, (check_detail r group req responseDetails actualBody None line).2 = inl c →
         c = None
         → count_ParseBody
             (check_detail r group req responseDetails actualBody None line).1 = 0%nat.
Proof.
  unfold check_detail.
  destruct (HasPrefix (Key (LineDetail line)) "Data").
  - unfold parse_once. run_unfold.
    destruct (assertData_cases (ParseBody r actualBody).1 (ParseBody r actualBody).2
                (Key (LineDetail line)) (DetailValue (LineDetail line)))
      as [-> | [[l ->] | [p ->]]];
      cbn; (split; [lia|]); intros c; congruence.
  - destruct (responseDetails !! Key (LineDetail line)) as [actual|]; run_unfold.
    + unfold assertDetail. run_unfold.
      destruct (iface_eq actual _) as [[|]|p]; cbn; (split; [lia|]); done.
    + cbn. split; [lia|done].
Qed.

Lemma check_details_cached (r : Runner) (group : Group) (req : Request)
    (responseDetails : gmap string GoVal) (actualBody : string)
    (parsed : GoVal * option error) (l : Lines) :
  count_ParseBody
    (foldM (check_detail r group req responseDetails actualBody) (Some parsed) l).1
  = 0%nat.
Proof.
  induction l as [|x l IH]; [done|].
  cbn [foldM]. run_unfold.
  destruct (check_detail_cached r group req responseDetails actualBody parsed x)
    as [Hcount Hnext].
  destruct (check_detail r group req responseDetails actualBody (Some parsed) x)
    as [trx [c|v]]; cbn in *; [|done].
  rewrite (Hnext c eq_refl).
  destruct (foldM _ (Some parsed) l) as [tr' r']. cbn in *.
  rewrite count_ParseBody_app. lia.
Qed.

End OnceFacts.

(** X3. The loop over the expected details calls the body parser at most
    once, however many entries have a key that starts with [Data]. *)
Theorem check_details_parse_once (lib : GoLib) (pkg : ParsePkg) (r : Runner)
    (group : Group) (req : Request) (responseDetails : gmap string GoVal)
    (actualBody : string) (l : Lines) :
  (count_ParseBody
     (foldM (check_detail r group req responseDetails actualBody) None l).1 ≤ 1)%nat.
Proof.
  induction l as [|x l IH]; [cbn; lia|].
  cbn [foldM]. run_unfold.
  destruct (check_detail_uncached r group req responseDetails actualBody x)
    as [Hcount Hnone].
  destruct (check_detail r group req responseDetails actualBody None x)
    as [trx [c|v]]; cbn in *; [|done].
  destruct c as [parsed|].
  - pose proof (check_details_cached r group req responseDetails actualBody parsed l)
      as Hrest.
    destruct (foldM _ (Some parsed) l) as [tr' r']. cbn in *.
    rewrite count_ParseBody_app. lia.
  - specialize (Hnone None eq_refl eq_refl).
    destruct (foldM _ None l) as [tr' r']. cbn in *.
    rewrite count_ParseBody_app. lia.
Qed.

(** ** More on the value model *)

(** X4. When [Type] says "string", [Data] is a string and [Equal] is the
    equality of strings: it returns [true] for that very string and [false]
    for any other value, and does not panic. *)
Theorem Value_Equal_plain_string (lib : GoLib) (v : Value) (val : GoVal) :
  Value_Type v = "string" →
  ∃ s, Data v = VString s
       ∧ Value_Equal v val
         = Ok (match val with
               | VString t => String.eqb s t
               | _ => false
               end).
Proof.
  destruct v as [d]. unfold Value_Type, Value_Equal. cbn [Data].
  destruct d as [| [|] | f | n | s | l | m]; try discriminate.
  destruct (HasPrefix s "/" && HasSuffix s "/"); [discriminate|].
  intros _. exists s. split; [done|]. by destruct val.
Qed.

(** X4 on a path: it starts with a slash and does not end with one, so it is
    a plain string. *)
Lemma Value_Equal_plain_string_witness :
  Value_Type {| Data := VString "/hello" |} = "string"
  ∧ @Value_Equal goRef {| Data := VString "/hello" |} (VString "/hello") = Ok true
  ∧ @Value_Equal goRef {| Data := VString "/hello" |} (VString "hello") = Ok false.
Proof.
  split; [reflexivity|].
  split.
  - destruct (Value_Equal_plain_string goRef {| Data := VString "/hello" |}
                (VString "/hello") eq_refl) as (s & Hs & ->).
    injection Hs as <-. reflexivity.
  - destruct (Value_Equal_plain_string goRef {| Data := VString "/hello" |}
                (VString "hello") eq_refl) as (s & Hs & ->).
    injection Hs as <-. reflexivity.
Defined.

Lemma float64_eq_refl (f : float64) : f ≠ S754_nan → float64_eq f f = true.
Proof.
  intros Hf. unfold float64_eq, SFeqb, SFcompare.
  destruct f as [s|s| |s m e]; [done|by destruct s|done|].
  rewrite Z.compare_refl. destruct s; by rewrite Pos.compare_cont_refl.
Qed.

Lemma iface_eq_self (d : GoVal) : self_equal d → iface_eq d d = Ok true.
Proof.
  destruct d as [|b|f|n|s|l|m]; cbn; try done.
  - by destruct b.
  - intros Hf. by rewrite float64_eq_refl.
  - by rewrite Z.eqb_refl.
  - by rewrite String.eqb_refl.
Qed.

(** X5. A [Value] is [Equal] to its own [Data] when that is nil, a boolean,
    an [int], a [float64] other than NaN, or a string other than the slash
    alone whose pattern, if it is one between slashes, compiles: also when
    the pattern does not match its own text, since [Equal] then compares
    with [==]. *)
Theorem Value_Equal_self (lib : GoLib) (d : GoVal) :
  self_equal d →
  d ≠ VString "/" →
  (∀ pat, d = VString ("/" ++ pat ++ "/") → ∃ regex, regexp_Compile pat = inl regex) →
  Value_Equal {| Data := d |} d = Ok true.
Proof.
  intros Hself Hlone Hpat.
  destruct d as [|b|f|n|s|l|m];
    try (rewrite Value_Equal_not_string by done; by apply iface_eq_self).
  destruct (HasPrefix s "/" && HasSuffix s "/") eqn:Hdel.
  - apply andb_true_iff in Hdel as [Hp Hs].
    destruct (delimited_inv s Hp Hs) as [->|[pat ->]]; [done|].
    rewrite Value_Equal_delimited.
    destruct (Hpat pat eq_refl) as [regex ->].
    destruct (regexp_Match regex _); [done|]. by apply iface_eq_self.
  - unfold Value_Equal. cbn [Data]. rewrite Hdel. by apply iface_eq_self.
Qed.

Lemma snoc_slash_inj (p q : string) : p ++ "/" = q ++ "/" → p = q.
Proof.
  revert q. induction p as [|c p IH]; intros [|d q] Heq; cbn in Heq.
  - done.
  - injection Heq as _ Heq. by destruct q.
  - injection Heq as _ Heq. by destruct p.
  - injection Heq as -> Heq. by rewrite (IH q Heq).
Qed.

Lemma delimited_inj (p q : string) : "/" ++ p ++ "/" = "/" ++ q ++ "/" → p = q.
Proof.
  change ("/" ++ p ++ "/") with (String "/" (p ++ "/")).
  change ("/" ++ q ++ "/") with (String "/" (q ++ "/")).
  intros [= Heq]. by apply snoc_slash_inj.
Qed.

(** X5 on a pattern that does not match its own text. *)
Lemma Value_Equal_self_witness :
  self_equal (VString "/^x$/")
  ∧ @regexp_Compile goRef "^x$" = inl (Ref.RCat (Ref.RCat (Ref.RCat Ref.REmpty Ref.RBegin)
                                                   (Ref.RSet false [(120, 120)%N]))
                                         Ref.REnd)
  ∧ Ref.search (Ref.RCat (Ref.RCat (Ref.RCat Ref.REmpty Ref.RBegin)
                            (Ref.RSet false [(120, 120)%N])) Ref.REnd)
      "/^x$/" true = false
  ∧ @Value_Equal goRef {| Data := VString "/^x$/" |} (VString "/^x$/") = Ok true.
Proof.
  split; [exact I|]. split; [reflexivity|]. split; [reflexivity|].
  apply (Value_Equal_self goRef (VString "/^x$/") I); [discriminate|].
  intros pat Hpat.
  assert ("/" ++ "^x$" ++ "/" = "/" ++ pat ++ "/") as Heq.
  { exact (f_equal (λ d, match d with VString s => s | _ => "" end) Hpat). }
  apply delimited_inj in Heq as <-. by eexists.
Defined.

(** ** The log *)

Lemma append_assoc (a b c : string) : (a ++ b) ++ c = a ++ b ++ c.
Proof.
  induction a as [|x a IH]; [reflexivity|].
  change (String x ((a ++ b) ++ c) = String x (a ++ b ++ c)). by rewrite IH.
Qed.

Lemma Join_snoc (l : list string) (x sep : string) :
  l ≠ [] → Join (l ++ [x])%list sep = Join l sep ++ sep ++ x.
Proof.
  unfold Join. induction l as [|a l IH]; [done|]. intros _.
  destruct l as [|b l]; [done|].
  change (String.concat sep ((a :: b :: l) ++ [x])%list)
    with (a ++ sep ++ String.concat sep ((b :: l) ++ [x])%list).
  rewrite IH by done.
  change (String.concat sep (a :: b :: l)) with (a ++ sep ++ String.concat sep (b :: l)).
  by rewrite !append_assoc.
Qed.

(** X6. Every line that the runner logs is its arguments separated by single
    spaces and followed by two spaces; without arguments it is one space. *)
Theorem log_line (args : list string) :
  log args
  = ([ELog (match args with
            | [] => " "
            | _ => Join args " " ++ "  "
            end)], inl tt).
Proof.
  unfold log, emit. destruct args as [|a args]; [done|].
  by rewrite Join_snoc.
Qed.

(** ** The discipline of failures *)

Lemma count_events_app (p : Event → bool) (a b : list Event) :
  count_events p (a ++ b) = (count_events p a + count_events p b)%nat.
Proof. unfold count_events. by rewrite List.filter_app, length_app. Qed.

Lemma count_events_none (p : Event → bool) (tr : list Event) :
  Forall (λ e, p e = false) tr → count_events p tr = 0%nat.
Proof.
  unfold count_events. induction 1 as [|e tr He _ IH]; [done|].
  cbn [List.filter]. by rewrite He.
Qed.

Lemma quiet_app (a b : list Event) : quiet a → quiet b → quiet (a ++ b).
Proof. intros Ha Hb. apply Forall_app. by split. Qed.

Lemma unsignalled_app (a b : list Event) :
  unsignalled a → unsignalled b → unsignalled (a ++ b).
Proof. intros Ha Hb. apply Forall_app. by split. Qed.

Lemma quiet_unsignalled (tr : list Event) : quiet tr → unsignalled tr.
Proof. intros Htr. eapply Forall_impl; [exact Htr|]. by intros e ->. Qed.

Lemma unsignalled_no (p : Event → bool) (tr : list Event) :
  (∀ e, is_ParseBody e || is_Log e = true → p e = false) →
  unsignalled tr → count_events p tr = 0%nat.
Proof. intros Hp Htr. apply count_events_none. by eapply Forall_impl. Qed.

Lemma bind_disciplined {A B} (m : Run A) (k : A → Run B) :
  disciplined m → (∀ a, disciplined (k a)) → disciplined (m ≫= k).
Proof.
  unfold mbind, Run_bind, bind, disciplined.
  destruct m as [tr [a|v]]; cbn [fst snd]; [|done].
  intros Htr Hk. specialize (Hk a).
  destruct (k a) as [tr' [b|[| |p]]]; cbn [fst snd] in *.
  - by apply quiet_app.
  - done.
  - destruct Hk as (pre & line & -> & Hpre). exists (tr ++ pre)%list, line.
    split; [by rewrite app_assoc|]. apply unsignalled_app; [|done].
    by apply quiet_unsignalled.
  - by apply quiet_app.
Qed.

Section DisciplineFacts.
Context `{GoLib} `{ParsePkg}.

Lemma check_detail_disciplined (r : Runner) (group : Group) (req : Request)
    (responseDetails : gmap string GoVal) (actualBody : string)
    (cache : option (GoVal * option error)) (line : Line) :
  disciplined (check_detail r group req responseDetails actualBody cache line).
Proof.
  unfold check_detail, disciplined.
  destruct (HasPrefix (Key (LineDetail line)) "Data").
  - unfold parse_once.
    destruct cache as [parsed|]; run_unfold.
    + destruct (assertData_cases parsed.1 parsed.2 (Key (LineDetail line))
                  (DetailValue (LineDetail line))) as [-> | [[l ->] | [p ->]]];
        cbn; [constructor| |constructor].
      eexists [ELog l], _. split; [done|]. by repeat constructor.
    + destruct (assertData_cases (ParseBody r actualBody).1 (ParseBody r actualBody).2
                  (Key (LineDetail line)) (DetailValue (LineDetail line)))
        as [-> | [[l ->] | [p ->]]];
        cbn; [by repeat constructor| |by repeat constructor].
      eexists [EParseBody actualBody; ELog l], _. split; [done|].
      by repeat constructor.
  - destruct (responseDetails !! Key (LineDetail line)) as [actual|]; run_unfold.
    + unfold assertDetail. run_unfold.
      destruct (iface_eq actual _) as [[|]|p]; cbn; [constructor| |constructor].
      eexists [ELog _], _. split; [done|]. by repeat constructor.
    + cbn. eexists [ELog _], _. split; [done|]. by repeat constructor.
Qed.

Lemma check_details_disciplined (r : Runner) (group : Group) (req : Request)
    (responseDetails : gmap string GoVal) (actualBody : string)
    (cache : option (GoVal * option error)) (l : Lines) :
  disciplined (foldM (check_detail r group req responseDetails actualBody) cache l).
Proof.
  revert cache. induction l as [|x l IH]; intros cache; [constructor|].
  cbn [foldM]. apply bind_disciplined; [apply check_detail_disciplined | done].
Qed.

Lemma check_response_disciplined (r : Runner) (group : Group) (req : Request)
    (httpRes : HttpResponse) :
  disciplined (check_response r group req httpRes).
Proof.
  unfold check_response. destruct (BodyRead httpRes) as [actualBody|err].
  - apply bind_disciplined.
    + case_bool_decide; [|constructor]. unfold assertBody.
      destruct (DeepEqual _ _); [constructor|].
      unfold disciplined. run_unfold. cbn.
      eexists [_; _; _; _; _; _; _; _], _. split; [done|]. by repeat constructor.
    + intros _. apply bind_disciplined; [apply check_details_disciplined|].
      intros _. constructor.
  - unfold disciplined. run_unfold. cbn. eexists [], _. split; [done|]. constructor.
Qed.

Lemma request_trace_silent (r : Runner) (req : Request) (httpReq0 : HttpRequest) :
  Forall (λ e, is_FailNow e = false ∧ is_Log e = false ∧ is_Close e = false)
    (request_trace r req httpReq0).
Proof.
  unfold request_trace. repeat (apply Forall_app; split);
    try (apply Forall_fmap, Forall_true; done); by repeat constructor.
Qed.

(** The three ways of [runRequest]: the request cannot be built; the
    transport returns an error; the transport returns a response, which is
    checked and then closed. *)
Lemma runRequest_cases (r : Runner) (group : Group) (req : Request) :
  (∃ err,
     NewRequest r (Method req) (rootURL r ++ Path req) (request_body req) = inr err
     ∧ runRequest r group req
       = ([EVerbose [VString (Method req); VString (rootURL r ++ Path req)];
           ENewRequest (Method req) (rootURL r ++ Path req) (request_body req);
           ELog (Join ["invalid request: "; err; " "] " "); EFailNow], Failed))
  ∨ (∃ httpReq0 err,
       NewRequest r (Method req) (rootURL r ++ Path req) (request_body req)
       = inl httpReq0
       ∧ RoundTripper r (outbound_request req httpReq0) = inr err
       ∧ runRequest r group req
         = ((request_trace r req httpReq0
             ++ [ELog (Join [err; " "] " "); EFailNow])%list, Failed))
  ∨ (∃ httpReq0 httpRes,
       NewRequest r (Method req) (rootURL r ++ Path req) (request_body req)
       = inl httpReq0
       ∧ RoundTripper r (outbound_request req httpReq0) = inl httpRes
       ∧ runRequest r group req
         = finish ((request_trace r req httpReq0
                    ++ (check_response r group req httpRes).1 ++ [EBodyClose])%list,
                   (check_response r group req httpRes).2)).
Proof.
  destruct (NewRequest r (Method req) (rootURL r ++ Path req) (request_body req))
    as [httpReq0|err] eqn:Hnew.
  - destruct (RoundTripper r (outbound_request req httpReq0)) as [httpRes|err]
      eqn:Htrip.
    + right; right. exists httpReq0, httpRes. split; [done|]. split; [done|].
      by apply runRequest_response.
    + right; left. exists httpReq0, err. split; [done|]. split; [done|].
      unfold runRequest, runRequest_body. fold (request_body req). rewrite Hnew.
      run_unfold. rewrite foldM_add_header, foldM_add_param.
      fold (outbound_header req httpReq0). fold (outbound_query req httpReq0).
      fold (outbound_request req httpReq0). rewrite Htrip.
      unfold request_trace. cbn. by rewrite <- !app_assoc.
  - left. exists err. split; [done|].
    unfold runRequest, runRequest_body. fold (request_body req). by rewrite Hnew.
Qed.

End DisciplineFacts.

Lemma request_trace_count `{GoLib} `{ParsePkg} (p : Event → bool) (r : Runner)
    (req : Request) (httpReq0 : HttpRequest) :
  (∀ e, is_FailNow e = false → is_Log e = false → is_Close e = false → p e = false) →
  count_events p (request_trace r req httpReq0) = 0%nat.
Proof.
  intros Hp. apply count_events_none.
  eapply Forall_impl; [apply request_trace_silent|].
  intros e (? & ? & ?). by apply Hp.
Qed.

Lemma quiet_count (p : Event → bool) (tr : list Event) :
  (∀ e, is_ParseBody e = true → p e = false) → quiet tr → count_events p tr = 0%nat.
Proof. intros Hp Htr. apply count_events_none. by eapply Forall_impl. Qed.

Ltac count_zero :=
  first [ apply request_trace_count; by intros []
        | apply quiet_count; [by intros [] | done]
        | apply unsignalled_no; [by intros [] | done] ].

(** X7. [runRequest] calls [FailNow] once when it fails, right after a log
    line, and never when it completes or panics; a request that completes
    has logged nothing. *)
Theorem runRequest_signals_once (lib : GoLib) (pkg : ParsePkg) (r : Runner)
    (group : Group) (req : Request) :
  count_events is_FailNow (runRequest r group req).1
  = match (runRequest r group req).2 with
    | Failed => 1%nat
    | _ => 0%nat
    end
  ∧ ((runRequest r group req).2 = Completed →
     count_events is_Log (runRequest r group req).1 = 0%nat)
  ∧ ((runRequest r group req).2 = Failed →
     ∃ pre line post,
       (runRequest r group req).1 = (pre ++ ELog line :: EFailNow :: post)%list).
Proof.
  destruct (runRequest_cases r group req)
    as [(err & _ & ->) | [(q0 & err & _ & _ & ->) | (q0 & httpRes & _ & _ & ->)]].
  - split; [done|]. split; [done|]. intros _. by eexists [_; _], _, [].
  - cbn [fst snd]. split; [|split; [done|]].
    + rewrite count_events_app.
      replace (count_events is_FailNow (request_trace r req q0)) with 0%nat
        by (symmetry; count_zero).
      done.
    + intros _. by eexists _, _, [].
  - pose proof (check_response_disciplined r group req httpRes) as Hd.
    unfold disciplined in Hd.
    destruct (check_response r group req httpRes) as [tr [[]|[| |p]]];
      cbn [fst snd finish] in *; [| done | |].
    + split; [|split; [|done]].
      * rewrite !count_events_app.
        replace (count_events is_FailNow (request_trace r req q0)) with 0%nat
          by (symmetry; count_zero).
        replace (count_events is_FailNow tr) with 0%nat by (symmetry; count_zero).
        done.
      * intros _. rewrite !count_events_app.
        replace (count_events is_Log (request_trace r req q0)) with 0%nat
          by (symmetry; count_zero).
        replace (count_events is_Log tr) with 0%nat by (symmetry; count_zero).
        done.
    + destruct Hd as (pre & line & -> & Hpre). split; [|split; [done|]].
      * rewrite !count_events_app.
        replace (count_events is_FailNow (request_trace r req q0)) with 0%nat
          by (symmetry; count_zero).
        replace (count_events is_FailNow pre) with 0%nat by (symmetry; count_zero).
        done.
      * intros _. exists (request_trace r req q0 ++ pre)%list, line, [EBodyClose].
        by rewrite <- !app_assoc.
    + split; [|split; [done|done]].
      rewrite !count_events_app.
      replace (count_events is_FailNow (request_trace r req q0)) with 0%nat
        by (symmetry; count_zero).
      replace (count_events is_FailNow tr) with 0%nat by (symmetry; count_zero).
      done.
Qed.

(** X8. [runRequest] closes the response body when the transport has
    returned a response, and then as the last thing it does, once, on every
    way out (completion, failure or panic); it closes nothing when the
    request could not be built or the transport returned an error. *)
Theorem runRequest_closes_body (lib : GoLib) (pkg : ParsePkg) (r : Runner)
    (group : Group) (req : Request) :
  match NewRequest r (Method req) (rootURL r ++ Path req) (request_body req) with
  | inl httpReq0 =>
      match RoundTripper r (outbound_request req httpReq0) with
      | inl _ =>
          ∃ tr, (runRequest r group req).1 = (tr ++ [EBodyClose])%list
                ∧ count_events is_Close tr = 0%nat
      | inr _ => count_events is_Close (runRequest r group req).1 = 0%nat
      end
  | inr _ => count_events is_Close (runRequest r group req).1 = 0%nat
  end.
Proof.
  destruct (runRequest_cases r group req)
    as [(err & -> & ->) | [(q0 & err & -> & -> & ->) | (q0 & httpRes & -> & -> & ->)]].
  - done.
  - cbn [fst snd]. rewrite count_events_app.
    replace (count_events is_Close (request_trace r req q0)) with 0%nat
      by (symmetry; count_zero).
    done.
  - pose proof (check_response_disciplined r group req httpRes) as Hd.
    unfold disciplined in Hd.
    exists (request_trace r req q0 ++ (check_response r group req httpRes).1)%list.
    split.
    + destruct (check_response r group req httpRes) as [tr [[]|v]];
        cbn [finish fst snd]; by rewrite app_assoc.
    + rewrite count_events_app.
      replace (count_events is_Close (request_trace r req q0)) with 0%nat
        by (symmetry; count_zero).
      destruct (check_response r group req httpRes) as [tr [[]|[| |p]]];
        cbn [fst snd] in *; [count_zero|done| |count_zero].
      destruct Hd as (pre & line & -> & Hpre). rewrite count_events_app.
      replace (count_events is_Close pre) with 0%nat by (symmetry; count_zero).
      done.
Qed.

(** ** The values of the outbound headers and parameters *)

Lemma strings_append_lookup (m : StringsMap) (key value k : string) :
  default [] (strings_append m key value !! k)
  = (default [] (m !! k) ++ if bool_decide (key = k) then [value] else [])%list.
Proof.
  unfold strings_append. case_bool_decide as Hk.
  - subst k. by rewrite lookup_insert_eq.
  - by rewrite lookup_insert_ne, app_nil_r.
Qed.

Lemma fold_append_values (key_of value_of : Line → string) (l : Lines)
    (m : StringsMap) (k : string) :
  default [] (foldl (λ m x, strings_append m (key_of x) (value_of x)) m l !! k)
  = (default [] (m !! k) ++ values_for key_of value_of k l)%list.
Proof.
  unfold values_for. revert m. induction l as [|x l IH]; intros m.
  - by rewrite app_nil_r.
  - cbn [foldl List.filter]. rewrite IH, strings_append_lookup.
    case_bool_decide; cbn [map]; by rewrite <- app_assoc.
Qed.

(** X9. The request handed to the transport has the method and the body of
    the one that [NewRequest] returned, and under every header key the
    values that one had, then the length of the body if the key is
    [Content-Length], then the [%v] renderings of the [Details] of that
    canonical key, all of them, in the order of the document; its query is
    the encoding of the values of the URL followed, under every key, by those
    of the [Params] of that key, in order. *)
Theorem runRequest_outbound_values (lib : GoLib) (pkg : ParsePkg) (r : Runner)
    (group : Group) (req : Request) (httpReq0 : HttpRequest) :
  NewRequest r (Method req) (rootURL r ++ Path req) (request_body req) = inl httpReq0 →
  ∃ httpReq q,
    sent_request (runRequest r group req).1 = Some httpReq
    ∧ ReqMethod httpReq = ReqMethod httpReq0
    ∧ ReqBody httpReq = ReqBody httpReq0
    ∧ RawQuery (ReqURL httpReq) = url_Encode q
    ∧ (∀ k,
         default [] (ReqHeader httpReq !! k)
         = (default [] (ReqHeader httpReq0 !! k)
            ++ (if bool_decide (CanonicalMIMEHeaderKey "Content-Length" = k)
                then [Itoa (len (Lines_String (Body req)))] else [])
            ++ values_for (λ line, CanonicalMIMEHeaderKey (Key (LineDetail line)))
                 (λ line, Sprint_v (Data (DetailValue (LineDetail line))))
                 k (Details req))%list)
    ∧ (∀ k,
         default [] (q !! k)
         = (default [] (url_ParseQuery (RawQuery (ReqURL httpReq0)) !! k)
            ++ values_for (λ line, Key (LineDetail line))
                 (λ line, Sprint_v (Data (DetailValue (LineDetail line))))
                 k (Params req))%list).
Proof.
  intros Hnew. exists (outbound_request req httpReq0), (outbound_query req httpReq0).
  split; [by apply runRequest_sent|]. do 3 (split; [done|]). split.
  - intros k. cbn [outbound_request ReqHeader]. unfold outbound_header, Header_Add.
    rewrite (fold_append_values
               (λ line, CanonicalMIMEHeaderKey (Key (LineDetail line)))
               (λ line, Sprint_v (Data (DetailValue (LineDetail line))))).
    by rewrite strings_append_lookup, <- app_assoc.
  - intros k. unfold outbound_query, Values_Add.
    by rewrite (fold_append_values
                  (λ line, Key (LineDetail line))
                  (λ line, Sprint_v (Data (DetailValue (LineDetail line))))).
Qed.

(** X9 on a request that gives the header [accept] twice, in two spellings,
    and the parameter [name] twice: both values are sent under [Accept], in
    order, after the [Content-Length] of the empty body under its own key,
    and both parameters are encoded. *)
Lemma runRequest_outbound_values_witness :
  NewRequest (fixed_runner hello_header "Hello Mat.") "GET"
    "http://localhost:8080/hello" None = inl hello_base_request
  ∧ ∃ httpReq q,
      sent_request
        (@runRequest goRef (parseRef []) (fixed_runner hello_header "Hello Mat.")
           hello_group repeated_header_request).1 = Some httpReq
      ∧ default [] (ReqHeader httpReq !! "Accept") = ["text/plain"; "text/html"]
      ∧ default [] (ReqHeader httpReq !! "Content-Length") = ["0"]
      ∧ RawQuery (ReqURL httpReq) = @url_Encode goRef q
      ∧ default [] (q !! "name") = ["Mat"; "7"].
Proof.
  split; [reflexivity|].
  destruct (runRequest_outbound_values goRef (parseRef [])
              (fixed_runner hello_header "Hello Mat.") hello_group
              repeated_header_request hello_base_request eq_refl)
    as (httpReq & q & Hsent & _ & _ & Hq & Hh & Hp).
  exists httpReq, q. split; [exact Hsent|]. split; [|split; [|split]].
  - rewrite Hh. reflexivity.
  - rewrite Hh. reflexivity.
  - exact Hq.
  - rewrite Hp. reflexivity.
Defined.

(** ** The values of the response details *)

Lemma responseDetails_value (httpRes : HttpResponse) (k : string) (actual : GoVal) :
  responseDetails_of httpRes !! k = Some actual →
  (k = "Status" ∧ actual = VFloat64 (float64_of_int (StatusCode httpRes)))
  ∨ (k ≠ "Status"
     ∧ ∃ vs s, Header httpRes !! k = Some vs ∧ last vs = Some s ∧ actual = VString s).
Proof.
  destruct (decide (k = "Status")) as [->|Hk].
  - rewrite responseDetails_Status. intros [= <-]. by left.
  - unfold responseDetails_of. rewrite lookup_insert_ne by done.
    rewrite collected_lookup. intros Hl. right. split; [done|].
    destruct (Header httpRes !! k) as [vs|]; [|done]. cbn in Hl.
    destruct (last vs) as [s|] eqn:Hlast; [|done]. injection Hl as <-.
    by exists vs, s.
Qed.

Lemma iface_eq_string (s : string) (expected : GoVal) :
  ∃ b, iface_eq (VString s) expected = Ok b.
Proof. destruct expected; by eexists. Qed.

Lemma iface_eq_float64 (f : float64) (expected : GoVal) :
  ∃ b, iface_eq (VFloat64 f) expected = Ok b.
Proof. destruct expected; by eexists. Qed.

(** X10. On the flattened mapping of a response, whose values are strings
    and, for [Status], a float64, the check of an entry whose key does not
    start with [Data] never panics, whatever is expected (a map, a slice):
    the entry passes, or its failure is reported. *)
Theorem check_detail_header_no_panic (lib : GoLib) (pkg : ParsePkg) (r : Runner)
    (group : Group) (req : Request) (httpRes : HttpResponse) (actualBody : string)
    (cache : option (GoVal * option error)) (line : Line) :
  HasPrefix (Key (LineDetail line)) "Data" = false →
  goes_to_next
    (check_detail r group req (responseDetails_of httpRes) actualBody cache line)
  ∨ reports_failure
      (check_detail r group req (responseDetails_of httpRes) actualBody cache line).
Proof.
  intros Hkey.
  destruct (responseDetails_of httpRes !! Key (LineDetail line)) as [actual|] eqn:Hrd.
  - rewrite (check_detail_present _ _ _ _ _ _ _ actual Hkey Hrd).
    assert (∃ b, iface_eq actual (Data (DetailValue (LineDetail line))) = Ok b)
      as [b ->].
    { destruct (responseDetails_value _ _ _ Hrd)
        as [[_ ->] | (_ & vs & s & _ & _ & ->)];
        [apply iface_eq_float64 | apply iface_eq_string]. }
    destruct b; [left; by exists cache | right; by apply (reports_failure_intro [_])].
  - right. by apply check_detail_missing.
Qed.

(** X10 on a content type expected to be an (empty) map: a reported failure,
    no panic. *)
Lemma check_detail_header_no_panic_witness :
  HasPrefix "Content-Type" "Data" = false
  ∧ reports_failure
      (@check_detail goRef (parseRef []) (fixed_runner hello_header "Hello Mat.")
         hello_group hello_request
         (responseDetails_of (fixed_response hello_header "Hello Mat."))
         "Hello Mat." None (detail_line 12 "Content-Type" (VMap ∅))).
Proof.
  split; [reflexivity|].
  destruct (check_detail_header_no_panic goRef (parseRef [])
              (fixed_runner hello_header "Hello Mat.") hello_group hello_request
              (fixed_response hello_header "Hello Mat.") "Hello Mat." None
              (detail_line 12 "Content-Type" (VMap ∅)) eq_refl) as [[c Hc]|Hf];
    [vm_compute in Hc; discriminate Hc | exact Hf].
Defined.

(** X11. An expectation on [Status] passes if and only if the expected
    [Data] is a float64 that [==] the status code converted to float64: an
    expected string or [int] fails, whatever it shows. *)
Theorem check_detail_Status (lib : GoLib) (pkg : ParsePkg) (r : Runner)
    (group : Group) (req : Request) (httpRes : HttpResponse) (actualBody : string)
    (cache : option (GoVal * option error)) (line : Line) :
  Key (LineDetail line) = "Status" →
  goes_to_next
    (check_detail r group req (responseDetails_of httpRes) actualBody cache line)
  ↔ ∃ f, Data (DetailValue (LineDetail line)) = VFloat64 f
         ∧ float64_eq (float64_of_int (StatusCode httpRes)) f = true.
Proof.
  intros Hkey.
  assert (HasPrefix (Key (LineDetail line)) "Data" = false) as Hplain
    by (by rewrite Hkey).
  assert (responseDetails_of httpRes !! Key (LineDetail line)
          = Some (VFloat64 (float64_of_int (StatusCode httpRes)))) as Hrd
    by (rewrite Hkey; apply responseDetails_Status).
  rewrite (check_detail_present _ _ _ _ _ _ _ _ Hplain Hrd).
  destruct (Data (DetailValue (LineDetail line))) as [|b|f|n|s|l|m]; cbn [iface_eq];
    try (split; [by intros [c Hc] | by intros (f' & Hf' & _)]).
  destruct (float64_eq (float64_of_int (StatusCode httpRes)) f) eqn:Heq.
  - split; [|intros _; by exists cache]. intros _. by exists f.
  - split; [by intros [c Hc]|]. intros (f' & [= <-] & Hf'). congruence.
Qed.

(** X11 on the status 200 of the fixture: the number 200 passes; the string
    "200" and the [int] 200 do not. *)
Lemma check_detail_Status_witness :
  goes_to_next
    (@check_detail goRef (parseRef []) (fixed_runner hello_header "Hello Mat.")
       hello_group hello_request
       (responseDetails_of (fixed_response hello_header "Hello Mat."))
       "Hello Mat." None (detail_line 11 "Status" (VFloat64 (float64_of_int 200))))
  ∧ ¬ goes_to_next
      (@check_detail goRef (parseRef []) (fixed_runner hello_header "Hello Mat.")
         hello_group hello_request
         (responseDetails_of (fixed_response hello_header "Hello Mat."))
         "Hello Mat." None (detail_line 11 "Status" (VString "200")))
  ∧ ¬ goes_to_next
      (@check_detail goRef (parseRef []) (fixed_runner hello_header "Hello Mat.")
         hello_group hello_request
         (responseDetails_of (fixed_response hello_header "Hello Mat."))
         "Hello Mat." None (detail_line 11 "Status" (VInt 200))).
Proof.
  split; [|split].
  - apply (check_detail_Status goRef (parseRef [])
             (fixed_runner hello_header "Hello Mat.") hello_group hello_request
             (fixed_response hello_header "Hello Mat.") "Hello Mat." None
             (detail_line 11 "Status" (VFloat64 (float64_of_int 200))) eq_refl).
    by eexists.
  - intros Hgo.
    apply (check_detail_Status goRef (parseRef [])
             (fixed_runner hello_header "Hello Mat.") hello_group hello_request
             (fixed_response hello_header "Hello Mat.") "Hello Mat." None
             (detail_line 11 "Status" (VString "200")) eq_refl) in Hgo.
    destruct Hgo as (f & Hf & _). discriminate Hf.
  - intros Hgo.
    apply (check_detail_Status goRef (parseRef [])
             (fixed_runner hello_header "Hello Mat.") hello_group hello_request
             (fixed_response hello_header "Hello Mat.") "Hello Mat." None
             (detail_line 11 "Status" (VInt 200)) eq_refl) in Hgo.
    destruct Hgo as (f & Hf & _). discriminate Hf.
Defined.

(** ** The loops over requests and groups *)

Lemma run_all_stops {A} (r : Runner) (run1 : A → list Event * Verdict)
    (l1 : list A) (x : A) (l2 : list A) :
  Forall (λ y, goes_on r (run1 y).2 = true) l1 →
  goes_on r (run1 x).2 = false →
  run_all r run1 (l1 ++ x :: l2)
  = ((concat (map (λ y, (run1 y).1) l1) ++ (run1 x).1)%list, (run1 x).2).
Proof.
  intros Hl1 Hx. induction Hl1 as [|y l1 Hy _ IH]; cbn [app map concat run_all].
  - destruct (run1 x) as [tr v]. cbn [fst snd] in *. by rewrite Hx.
  - rewrite IH. destruct (run1 y) as [tr v]. cbn [fst snd] in *. rewrite Hy.
    rewrite <- (assoc_L (++)%list). f_equal.
    destruct v, ((run1 x).2); done.
Qed.

Lemma run_all_goes_on {A} (r : Runner) (run1 : A → list Event * Verdict)
    (l : list A) :
  Forall (λ y, goes_on r (run1 y).2 = true) l →
  run_all r run1 l
  = (concat (map (λ y, (run1 y).1) l),
     if existsb (λ y, is_Failed (run1 y).2) l then Failed else Completed).
Proof.
  intros Hl. induction Hl as [|y l Hy _ IH]; cbn [map concat run_all existsb];
    [done|].
  rewrite IH. destruct (run1 y) as [tr v]. cbn [fst snd] in *. rewrite Hy.
  f_equal. destruct v; cbn [is_Failed orb]; try done.
  by destruct (existsb _ l).
Qed.

Lemma goes_on_merged (r : Runner) (b : bool) :
  (b = true → FailNowReturns r = true) →
  goes_on r (if b then Failed else Completed) = true.
Proof. destruct b; cbn; auto. Qed.

Section LoopFacts2.
Context `{GoLib} `{ParsePkg}.

Lemma runGroup_goes_on (r : Runner) (group : Group) :
  Forall (λ req, request_goes_on r group req = true) (Requests group) →
  runGroup r group
  = (request_traces r group (Requests group),
     if existsb (λ req, is_Failed (runRequest r group req).2) (Requests group)
     then Failed else Completed)
  ∧ goes_on r (runGroup r group).2 = true.
Proof.
  intros Hall.
  assert (runGroup r group
          = (request_traces r group (Requests group),
             if existsb (λ req, is_Failed (runRequest r group req).2)
                  (Requests group)
             then Failed else Completed)) as Heq
    by (by apply run_all_goes_on).
  split; [done|]. rewrite Heq. cbn [snd]. apply goes_on_merged.
  intros (req & Hin & Hf)%existsb_exists.
  rewrite Forall_forall in Hall. apply list_elem_of_In, Hall in Hin.
  unfold request_goes_on in Hin.
  by destruct ((runRequest r group req).2).
Qed.

Lemma runGroup_stops (r : Runner) (group : Group)
    (l1 : list Request) (req : Request) (l2 : list Request) :
  Requests group = (l1 ++ req :: l2)%list →
  Forall (λ req', request_goes_on r group req' = true) l1 →
  request_goes_on r group req = false →
  runGroup r group
  = ((request_traces r group l1 ++ (runRequest r group req).1)%list,
     (runRequest r group req).2).
Proof.
  intros Hreqs Hl1 Hreq. unfold runGroup. rewrite Hreqs.
  by apply run_all_stops.
Qed.
End LoopFacts2.

(** X12. The first request after which the goroutine does not go on (a
    failure under a [FailNow] that does not return, or a panic) ends
    [RunGroup]: the trace is that of the requests before it, in the order of
    the groups, then its own; the verdict is its verdict; neither the later
    requests of its group nor the later groups are run. *)
Theorem RunGroup_stops (lib : GoLib) (pkg : ParsePkg) (r : Runner)
    (gs1 : list Group) (group : Group) (gs2 : list Group)
    (l1 : list Request) (req : Request) (l2 : list Request) :
  Requests group = (l1 ++ req :: l2)%list →
  Forall (λ g, Forall (λ req', request_goes_on r g req' = true) (Requests g)) gs1 →
  Forall (λ req', request_goes_on r group req' = true) l1 →
  request_goes_on r group req = false →
  RunGroup r (gs1 ++ group :: gs2)
  = ((group_traces r gs1 ++ request_traces r group l1
        ++ (runRequest r group req).1)%list,
     (runRequest r group req).2).
Proof.
  intros Hreqs Hgs1 Hl1 Hreq.
  pose proof (runGroup_stops r group l1 req l2 Hreqs Hl1 Hreq) as Hg.
  unfold RunGroup.
  rewrite (run_all_stops r (runGroup r) gs1 group gs2).
  - rewrite Hg. cbn [fst snd]. f_equal. f_equal. unfold group_traces. f_equal.
    apply map_ext_Forall. eapply Forall_impl; [exact Hgs1|].
    intros g Hgo. by rewrite (proj1 (runGroup_goes_on r g Hgo)).
  - eapply Forall_impl; [exact Hgs1|].
    intros g Hgo. apply (runGroup_goes_on r g Hgo).
  - by rewrite Hg.
Qed.

(** X12 on two groups, the first of which fails at its first request: the
    run ends there, failed, with the trace of that request alone. *)
Lemma RunGroup_stops_witness :
  Requests failing_group = ([] ++ two_failures_request :: [hello_request])%list
  ∧ @request_goes_on goRef (parseRef []) (fixed_runner hello_header "Hello Mat.")
      failing_group two_failures_request = false
  ∧ @RunGroup goRef (parseRef []) (fixed_runner hello_header "Hello Mat.")
      ([] ++ failing_group :: [hello_group])
    = ((@group_traces goRef (parseRef []) (fixed_runner hello_header "Hello Mat.") []
        ++ @request_traces goRef (parseRef [])
             (fixed_runner hello_header "Hello Mat.") failing_group []
        ++ (@runRequest goRef (parseRef []) (fixed_runner hello_header "Hello Mat.")
              failing_group two_failures_request).1)%list,
       Failed).
Proof.
  assert (@request_goes_on goRef (parseRef []) (fixed_runner hello_header "Hello Mat.")
            failing_group two_failures_request = false) as Hstop
    by (vm_compute; reflexivity).
  split; [reflexivity|]. split; [exact Hstop|].
  rewrite (RunGroup_stops goRef (parseRef []) (fixed_runner hello_header "Hello Mat.")
             [] failing_group [hello_group] [] two_failures_request [hello_request]
             eq_refl (Forall_nil_2 _) (Forall_nil_2 _) Hstop).
  f_equal; vm_compute; reflexivity.
Defined.

(** X13. When the goroutine goes on after every request (each one completes,
    or fails under a [FailNow] that returns), [RunGroup] runs every request
    of every group, in order, and its verdict is [Failed] if and only if a
    request failed. *)
Theorem RunGroup_runs_all (lib : GoLib) (pkg : ParsePkg) (r : Runner)
    (groups : list Group) :
  Forall (λ g, Forall (λ req, request_goes_on r g req = true) (Requests g)) groups →
  RunGroup r groups
  = (group_traces r groups, if any_failed r groups then Failed else Completed).
Proof.
  intros Hall. unfold RunGroup.
  rewrite run_all_goes_on.
  - unfold group_traces, any_failed. f_equal.
    + f_equal. apply map_ext_Forall. eapply Forall_impl; [exact Hall|].
      intros g Hgo. by rewrite (proj1 (runGroup_goes_on r g Hgo)).
    + induction Hall as [|g gs Hg _ IH]; [done|]. cbn [existsb].
      rewrite (proj1 (runGroup_goes_on r g Hg)). cbn [snd].
      destruct (existsb _ (Requests g)); cbn [is_Failed orb]; [done|].
      exact IH.
  - eapply Forall_impl; [exact Hall|].
    intros g Hgo. apply (runGroup_goes_on r g Hgo).
Qed.

(** X13 on the same two groups under a [FailNow] that returns: the failure
    of the first request is recorded, and the two other requests run. *)
Lemma RunGroup_runs_all_witness :
  Forall (λ g, Forall (λ req,
            @request_goes_on goRef (parseRef [])
              (lenient_runner hello_header "Hello Mat.") g req = true) (Requests g))
    [failing_group; hello_group]
  ∧ @RunGroup goRef (parseRef []) (lenient_runner hello_header "Hello Mat.")
      [failing_group; hello_group]
    = (@group_traces goRef (parseRef []) (lenient_runner hello_header "Hello Mat.")
         [failing_group; hello_group],
       Failed)
  ∧ count_events is_RoundTrip
      (@RunGroup goRef (parseRef []) (lenient_runner hello_header "Hello Mat.")
         [failing_group; hello_group]).1 = 3%nat.
Proof.
  assert (Forall (λ g, Forall (λ req,
            @request_goes_on goRef (parseRef [])
              (lenient_runner hello_header "Hello Mat.") g req = true) (Requests g))
            [failing_group; hello_group]) as Hall
    by (repeat constructor; vm_compute; reflexivity).
  split; [exact Hall|].
  rewrite (RunGroup_runs_all goRef (parseRef [])
             (lenient_runner hello_header "Hello Mat.")
             [failing_group; hello_group] Hall).
  split; [f_equal|]; vm_compute; reflexivity.
Defined.

(** ** Failures of the exchange *)

Lemma filter_none {A} (p : A → bool) (l : list A) :
  Forall (λ x, p x = false) l → List.filter p l = [].
Proof.
  induction 1 as [|x l Hx _ IH]; [done|]. cbn [List.filter]. by rewrite Hx.
Qed.

Section ExchangeFacts.
Context `{GoLib} `{ParsePkg}.

Lemma check_response_unread (r : Runner) (group : Group) (req : Request)
    (httpRes : HttpResponse) (err : error) :
  BodyRead httpRes = inr err →
  check_response r group req httpRes
  = ([ELog (Join ["failed to read body: "; err; " "] " "); EFailNow], inr Failed).
Proof. intros Hbody. unfold check_response. by rewrite Hbody. Qed.

Lemma exchange_error_trace (r : Runner) (group : Group) (req : Request)
    (line : string) :
  exchange_error r req = Some line →
  runRequest r group req
  = ((exchange_prefix r req ++ ELog line :: EFailNow :: exchange_closed r req)%list,
     Failed).
Proof.
  unfold exchange_error, exchange_prefix, exchange_closed.
  destruct (runRequest_cases r group req)
    as [(err & -> & ->) | [(q0 & err & -> & -> & ->) | (q0 & httpRes & -> & -> & ->)]].
  - by intros [= <-].
  - by intros [= <-].
  - destruct (BodyRead httpRes) as [b|err] eqn:Hbody; [done|]. intros [= <-].
    rewrite (check_response_unread r group req httpRes err Hbody).
    cbn [finish fst snd]. done.
Qed.

Lemma exchange_prefix_silent (r : Runner) (req : Request) :
  Forall (λ e, is_Log e = false ∧ is_ParseBody e = false) (exchange_prefix r req).
Proof.
  unfold exchange_prefix.
  destruct (NewRequest r (Method req) (rootURL r ++ Path req) (request_body req))
    as [httpReq0|err]; [|by repeat constructor].
  unfold request_trace. repeat (apply Forall_app; split);
    try (apply Forall_fmap, Forall_true; done); by repeat constructor.
Qed.

Lemma exchange_closed_silent (r : Runner) (req : Request) :
  Forall (λ e, is_Log e = false ∧ is_ParseBody e = false) (exchange_closed r req).
Proof.
  unfold exchange_closed.
  destruct (NewRequest r (Method req) (rootURL r ++ Path req) (request_body req))
    as [httpReq0|err]; [|constructor].
  destruct (RoundTripper r (outbound_request req httpReq0)); by repeat constructor.
Qed.

Lemma same_exchange_eq (r : Runner) (req req' : Request) :
  same_exchange req req' →
  exchange_error r req' = exchange_error r req
  ∧ exchange_prefix r req' = exchange_prefix r req
  ∧ exchange_closed r req' = exchange_closed r req.
Proof.
  destruct req, req'. unfold same_exchange. cbn.
  intros (-> & -> & -> & -> & ->). done.
Qed.
End ExchangeFacts.

(** X14. When the exchange itself fails (the request cannot be built, the
    transport returns an error, or the body of the response cannot be read),
    [runRequest] fails with one log line, that of the error; the body parser
    is not called; and nothing of what the request expects is looked at: a
    request with the same method, path, body, headers and parameters runs
    the same. *)
Theorem runRequest_exchange_error (lib : GoLib) (pkg : ParsePkg) (r : Runner)
    (group : Group) (req : Request) (line : string) :
  exchange_error r req = Some line →
  (runRequest r group req).2 = Failed
  ∧ List.filter is_Log (runRequest r group req).1 = [ELog line]
  ∧ count_events is_ParseBody (runRequest r group req).1 = 0%nat
  ∧ (∀ group' req', same_exchange req req' →
       runRequest r group' req' = runRequest r group req).
Proof.
  intros Herr. rewrite (exchange_error_trace r group req line Herr). cbn [fst snd].
  split; [done|]. split; [|split].
  - rewrite List.filter_app. cbn [List.filter is_Log].
    rewrite !filter_none; [done| |].
    + eapply Forall_impl; [apply exchange_closed_silent|]. by intros e [? _].
    + eapply Forall_impl; [apply exchange_prefix_silent|]. by intros e [? _].
  - unfold count_events. rewrite List.filter_app. cbn [List.filter is_ParseBody].
    rewrite !filter_none; [done| |].
    + eapply Forall_impl; [apply exchange_closed_silent|]. by intros e [_ ?].
    + eapply Forall_impl; [apply exchange_prefix_silent|]. by intros e [_ ?].
  - intros group' req' Hsame.
    destruct (same_exchange_eq r req req' Hsame) as (Herr' & Hpre & Hpost).
    rewrite (exchange_error_trace r group' req' line) by (by rewrite Herr').
    by rewrite Hpre, Hpost.
Qed.

(** X14 on the fixture's request behind a transport that refuses the
    connection: the one line logged is the error, whatever is expected. *)
Lemma runRequest_exchange_error_witness :
  @exchange_error goRef (parseRef []) broken_runner hello_request
  = Some "connection refused  "
  ∧ List.filter is_Log
      (@runRequest goRef (parseRef []) broken_runner hello_group hello_request).1
    = [ELog "connection refused  "]
  ∧ @runRequest goRef (parseRef []) broken_runner hello_group two_failures_request
    = @runRequest goRef (parseRef []) broken_runner hello_group hello_request.
Proof.
  assert (@exchange_error goRef (parseRef []) broken_runner hello_request
          = Some "connection refused  ") as Herr by (vm_compute; reflexivity).
  split; [exact Herr|].
  destruct (runRequest_exchange_error goRef (parseRef []) broken_runner hello_group
              hello_request "connection refused  " Herr)
    as (_ & Hlog & _ & Hsame).
  split; [exact Hlog|].
  apply Hsame. by repeat split.
Defined.

(** X15. A request that expects nothing (no body, no details) completes
    whenever the exchange succeeds, whatever the response: no status is
    checked by default, nothing is logged, the body is not parsed. *)
Theorem runRequest_no_expectations (lib : GoLib) (pkg : ParsePkg) (r : Runner)
    (group : Group) (req : Request) :
  ExpectedBody req = [] →
  ExpectedDetails req = [] →
  exchange_error r req = None →
  (runRequest r group req).2 = Completed
  ∧ List.filter is_Log (runRequest r group req).1 = []
  ∧ count_events is_ParseBody (runRequest r group req).1 = 0%nat
  ∧ count_events is_RoundTrip (runRequest r group req).1 = 1%nat.
Proof.
  intros Hbody Hdetails. unfold exchange_error.
  destruct (runRequest_cases r group req)
    as [(err & -> & ->) | [(q0 & err & -> & -> & ->) | (q0 & httpRes & -> & -> & ->)]];
    [done|done|].
  destruct (BodyRead httpRes) as [b|err] eqn:Hread; [intros _|done].
  assert (check_response r group req httpRes = ([], inl tt)) as ->.
  { unfold check_response. rewrite Hread, Hbody, Hdetails. done. }
  cbn [finish fst snd app].
  assert (Forall (λ e, is_Log e = false ∧ is_ParseBody e = false)
            (request_trace r req q0)) as Hsilent.
  { unfold request_trace. repeat (apply Forall_app; split);
      try (apply Forall_fmap, Forall_true; done); by repeat constructor. }
  split; [done|]. split; [|split].
  - rewrite List.filter_app. cbn [List.filter is_Log].
    rewrite filter_none; [done|].
    eapply Forall_impl; [exact Hsilent|]. by intros e [? _].
  - unfold count_events. rewrite List.filter_app. cbn [List.filter is_ParseBody].
    rewrite filter_none; [done|].
    eapply Forall_impl; [exact Hsilent|]. by intros e [_ ?].
  - unfold request_trace, count_events.
    rewrite !List.filter_app. cbn [List.filter is_RoundTrip app].
    rewrite !(filter_none is_RoundTrip (map _ _))
      by (apply Forall_fmap, Forall_true; done).
    done.
Qed.

(** X15 on a request without expectations, answered with the status 500. *)
Lemma runRequest_no_expectations_witness :
  ExpectedBody accept_request = []
  ∧ ExpectedDetails accept_request = []
  ∧ @exchange_error goRef (parseRef []) server_error_runner accept_request = None
  ∧ (@runRequest goRef (parseRef []) server_error_runner hello_group accept_request).2
    = Completed.
Proof.
  assert (@exchange_error goRef (parseRef []) server_error_runner accept_request
          = None) as Hok by (vm_compute; reflexivity).
  split; [reflexivity|]. split; [reflexivity|]. split; [exact Hok|].
  apply (runRequest_no_expectations goRef (parseRef []) server_error_runner
           hello_group accept_request eq_refl eq_refl Hok).
Defined.
